(** * The DAC channel driver (r_dac.c) and the HUK key shim (crypto_keys.c)

    A shallow embedding of the two C files.  Hardware registers are a record
    of integers, the caller-owned control block lives next to them in a
    [world], and every store to a register as well as every call of an
    external service (module start, software delay, critical section) is
    appended to a trace, so that "touches no hardware" is a statement about
    the trace.  C behaviour that the standard leaves undefined (a null
    dereference when parameter checking is compiled out, an index outside
    [DADR]) is the outcome [Undefined]. *)

From Stdlib Require Import ZArith List Lia Bool.
From stdpp Require Import base list.
Import ListNotations.
Local Open Scope Z_scope.

(** ** Fixed-width integers and bit-fields *)

Definition to_uint8 (z : Z) : Z := z mod 256.
Definition to_uint16 (z : Z) : Z := z mod 65536.
Definition to_uint32 (z : Z) : Z := z mod 4294967296.

(** A one-bit field at position [pos] of a register: write 1, write 0, read. *)
Definition bit_set (r pos : Z) : Z := Z.lor r (Z.shiftl 1 pos).
Definition bit_clear (r pos : Z) : Z := Z.ldiff r (Z.shiftl 1 pos).
Definition bit_get (r pos : Z) : bool := Z.testbit r pos.

Definition bit_write (r pos : Z) (b : bool) : Z :=
  if b then bit_set r pos else bit_clear r pos.

Definition Z_of_bool (b : bool) : Z := if b then 1 else 0.

Arguments bit_set : simpl never.
Arguments bit_clear : simpl never.
Arguments bit_get : simpl never.

Module DAC.

(** ** Status codes returned by the driver *)

Inductive fsp_err_t : Set :=
| FSP_SUCCESS
| FSP_ERR_ASSERTION
| FSP_ERR_NOT_OPEN
| FSP_ERR_IN_USE
| FSP_ERR_ALREADY_OPEN
| FSP_ERR_IP_CHANNEL_NOT_PRESENT.

Definition is_error (e : fsp_err_t) : bool :=
  match e with FSP_SUCCESS => false | _ => true end.

(** ** Macro definitions of r_dac.c *)

Definition DAC_OPEN : Z := 0x44414300.
Definition DAC_VREF_AVCC0_AVSS0 : Z := 0x01.
Definition DAC_DAADSCR_REG_DAADST_BIT_POS : Z := 0x07.
Definition DAC_DAADUSR_REG_MASK : Z := 0x02.
Definition DAC_DADPR_REG_DPSEL_BIT_POS : Z := 0x07.
Definition DAC_DAAMPCR_AMP_CTRL_BITS : Z := 0x06.
Definition DAC_DACR_DAOE_BITS : Z := 0x06.
Definition DAC_DAASWCR_DAASW0_MASK : Z := 0x40.
Definition DAC_DAASWCR_DAASW1_MASK : Z := 0x80.
Definition DAC_ADC_UNIT_1 : Z := 0x01.
Definition DAC_CONVERSION_TIME_WITH_OUTPUT_AMPLIFIER : Z := 0x04.

(** ** Build configuration

    The switches tested by [#if] in r_dac.c are defined in headers that are
    not part of the sources at hand; the driver is modelled for every choice
    of them. *)

Record bsp_cfg : Set := {
  DAC_CFG_PARAM_CHECKING_ENABLE : Z;
  BSP_FEATURE_DAC_MAX_CHANNELS : Z;
  BSP_FEATURE_DAC_HAS_CHARGEPUMP : Z;
  BSP_FEATURE_ADC_UNIT_1_CHANNELS : Z;
  BSP_FEATURE_DAC_HAS_OUTPUT_AMPLIFIER : Z;
  BSP_FEATURE_DAC_HAS_DAVREFCR : Z
}.

(** [#if X]: the branch is compiled when [X] is not zero. *)
Definition pp_if (x : Z) : bool := negb (x =? 0).

(** ** Data model *)

(** [dac_instance_ctrl_t]: the caller-owned channel control block. *)
Record dac_instance_ctrl_t : Set := {
  channel : Z;                       (* uint8_t *)
  channel_opened : Z;                (* uint32_t *)
  output_amplifier_enabled : bool
}.

(** [dac_extended_cfg_t] and [dac_cfg_t]. [p_extend] is a pointer and may be
    null. *)
Record dac_extended_cfg_t : Set := { enable_charge_pump : bool }.

Record dac_cfg_t : Set := {
  cfg_channel : Z;                   (* uint8_t channel *)
  ad_da_synchronized : bool;
  data_format : Z;                   (* dac_data_format_t *)
  cfg_output_amplifier_enabled : bool;
  p_extend : option dac_extended_cfg_t
}.

(** The register block [R_DAC].  [DADR] is the array of per-channel 16-bit
    data registers; all other registers are 8 bits wide. *)
Record R_DAC_Type : Set := {
  DADR : list Z;
  DACR : Z;
  DADPR : Z;
  DAADSCR : Z;
  DAVREFCR : Z;
  DAAMPCR : Z;
  DAPC : Z;
  DAASWCR : Z;
  DAADUSR : Z
}.

(** The bit-fields used by the driver.  Bit 6 belongs to channel 0 and bit 7
    to channel 1 in each of DACR (DAOE), DAAMPCR (DAAMP) and DAASWCR (DAASW),
    as the mask macros above spell out. *)
Definition DAOE0 : Z := DAC_DACR_DAOE_BITS.
Definition DAOE1 : Z := DAC_DACR_DAOE_BITS + 1.
Definition DAAMP0 : Z := DAC_DAAMPCR_AMP_CTRL_BITS.
Definition DAAMP1 : Z := DAC_DAAMPCR_AMP_CTRL_BITS + 1.
Definition DAASW0 : Z := Z.log2 DAC_DAASWCR_DAASW0_MASK.
Definition DAASW1 : Z := Z.log2 DAC_DAASWCR_DAASW1_MASK.

Inductive reg : Set :=
| REG_DADR (i : nat)
| REG_DACR
| REG_DADPR
| REG_DAADSCR
| REG_DAVREFCR
| REG_DAAMPCR
| REG_DAPC
| REG_DAASWCR
| REG_DAADUSR.

Inductive fsp_ip_t : Set := FSP_IP_DAC | FSP_IP_ADC.

Inductive bsp_delay_units_t : Set := BSP_DELAY_UNITS_MICROSECONDS.

(** What the driver does to the outside, in program order. *)
Inductive event : Set :=
| EvStore (r : reg) (v : Z)
| EvModuleStart (ip : fsp_ip_t) (ch : Z)
| EvSoftwareDelay (n : Z) (u : bsp_delay_units_t)
| EvCriticalEnter
| EvCriticalExit.

Record world : Set := {
  ctrl : dac_instance_ctrl_t;
  R_DAC : R_DAC_Type;
  trace : list event
}.

(** A [dac_ctrl_t *] argument: null, or the address of the block in [world]. *)
Inductive dac_ctrl_ptr : Set := NULL | P_CTRL.

(** ** The monad of driver code: state plus undefined behaviour *)

Inductive result (A : Type) : Type :=
| Done (a : A) (w : world)
| Undefined.
Arguments Done {A} a w.
Arguments Undefined {A}.

Definition M (A : Type) : Type := world -> result A.

Definition ret {A} (a : A) : M A := fun w => Done a w.
Definition bind {A B} (m : M A) (k : A -> M B) : M B :=
  fun w => match m w with Done a w' => k a w' | Undefined => Undefined end.
Definition undefined {A} : M A := fun _ => Undefined.

Notation "'do' x <- c ; k" := (bind c (fun x => k))
  (at level 10, x name, c at level 100, k at level 200).
Notation "c ;; k" := (bind c (fun _ => k))
  (at level 100, k at level 200, right associativity).

Definition emit (e : event) : M unit :=
  fun w => Done tt {| ctrl := ctrl w; R_DAC := R_DAC w; trace := trace w ++ [e] |}.

Definition get_regs : M R_DAC_Type := fun w => Done (R_DAC w) w.

Definition put_regs (r : R_DAC_Type) : M unit :=
  fun w => Done tt {| ctrl := ctrl w; R_DAC := r; trace := trace w |}.

(** Dereferencing the control pointer. *)
Definition load_ctrl (p : dac_ctrl_ptr) : M dac_instance_ctrl_t :=
  match p with
  | NULL => undefined
  | P_CTRL => fun w => Done (ctrl w) w
  end.

Definition store_ctrl (p : dac_ctrl_ptr) (c : dac_instance_ctrl_t) : M unit :=
  match p with
  | NULL => undefined
  | P_CTRL => fun w => Done tt {| ctrl := c; R_DAC := R_DAC w; trace := trace w |}
  end.

Definition load_cfg (p : option dac_cfg_t) : M dac_cfg_t :=
  match p with
  | None => undefined
  | Some c => ret c
  end.

(** Register access. *)
Definition read_reg (r : reg) : M Z :=
  do d <- get_regs;
  match r with
  | REG_DADR i => match DADR d !! i with Some v => ret v | None => undefined end
  | REG_DACR => ret (DACR d)
  | REG_DADPR => ret (DADPR d)
  | REG_DAADSCR => ret (DAADSCR d)
  | REG_DAVREFCR => ret (DAVREFCR d)
  | REG_DAAMPCR => ret (DAAMPCR d)
  | REG_DAPC => ret (DAPC d)
  | REG_DAASWCR => ret (DAASWCR d)
  | REG_DAADUSR => ret (DAADUSR d)
  end.

Definition set_reg (d : R_DAC_Type) (r : reg) (v : Z) : option R_DAC_Type :=
  let mk dadr dacr dadpr daadscr davrefcr daampcr dapc daaswcr daadusr :=
    Some {| DADR := dadr; DACR := dacr; DADPR := dadpr; DAADSCR := daadscr;
            DAVREFCR := davrefcr; DAAMPCR := daampcr; DAPC := dapc;
            DAASWCR := daaswcr; DAADUSR := daadusr |} in
  match r with
  | REG_DADR i =>
      match DADR d !! i with
      | Some _ => mk (<[i := v]> (DADR d)) (DACR d) (DADPR d) (DAADSCR d)
                     (DAVREFCR d) (DAAMPCR d) (DAPC d) (DAASWCR d) (DAADUSR d)
      | None => None
      end
  | REG_DACR => mk (DADR d) v (DADPR d) (DAADSCR d) (DAVREFCR d) (DAAMPCR d)
                   (DAPC d) (DAASWCR d) (DAADUSR d)
  | REG_DADPR => mk (DADR d) (DACR d) v (DAADSCR d) (DAVREFCR d) (DAAMPCR d)
                    (DAPC d) (DAASWCR d) (DAADUSR d)
  | REG_DAADSCR => mk (DADR d) (DACR d) (DADPR d) v (DAVREFCR d) (DAAMPCR d)
                      (DAPC d) (DAASWCR d) (DAADUSR d)
  | REG_DAVREFCR => mk (DADR d) (DACR d) (DADPR d) (DAADSCR d) v (DAAMPCR d)
                       (DAPC d) (DAASWCR d) (DAADUSR d)
  | REG_DAAMPCR => mk (DADR d) (DACR d) (DADPR d) (DAADSCR d) (DAVREFCR d) v
                      (DAPC d) (DAASWCR d) (DAADUSR d)
  | REG_DAPC => mk (DADR d) (DACR d) (DADPR d) (DAADSCR d) (DAVREFCR d)
                   (DAAMPCR d) v (DAASWCR d) (DAADUSR d)
  | REG_DAASWCR => mk (DADR d) (DACR d) (DADPR d) (DAADSCR d) (DAVREFCR d)
                      (DAAMPCR d) (DAPC d) v (DAADUSR d)
  | REG_DAADUSR => mk (DADR d) (DACR d) (DADPR d) (DAADSCR d) (DAVREFCR d)
                      (DAAMPCR d) (DAPC d) (DAASWCR d) v
  end.

(** A store to a register: the register changes and the store is traced. *)
Definition write_reg (r : reg) (v : Z) : M unit :=
  do d <- get_regs;
  match set_reg d r v with
  | Some d' => put_regs d' ;; emit (EvStore r v)
  | None => undefined
  end.

(** [R_DAC->XXX_b.FIELD = b]: read-modify-write of one bit. *)
Definition write_bit (r : reg) (pos : Z) (b : bool) : M unit :=
  do v <- read_reg r;
  write_reg r (bit_write v pos b).

Definition read_bit (r : reg) (pos : Z) : M bool :=
  do v <- read_reg r;
  ret (bit_get v pos).

(** External services. *)
Definition R_BSP_MODULE_START (ip : fsp_ip_t) (ch : Z) : M unit :=
  emit (EvModuleStart ip ch).
Definition R_BSP_SoftwareDelay (n : Z) (u : bsp_delay_units_t) : M unit :=
  emit (EvSoftwareDelay n u).
Definition FSP_CRITICAL_SECTION_ENTER : M unit := emit EvCriticalEnter.
Definition FSP_CRITICAL_SECTION_EXIT : M unit := emit EvCriticalExit.

(** [FSP_ERROR_RETURN(a, err)]: leave the function with [err] unless [a]
    holds.  [FSP_ASSERT(a)] is the same with the assertion status. *)
Definition FSP_ERROR_RETURN (a : bool) (err : fsp_err_t)
    (k : M fsp_err_t) : M fsp_err_t :=
  if a then k else ret err.

Definition FSP_ASSERT (a : bool) (k : M fsp_err_t) : M fsp_err_t :=
  FSP_ERROR_RETURN a FSP_ERR_ASSERTION k.

Definition not_null (p : dac_ctrl_ptr) : bool :=
  match p with NULL => false | P_CTRL => true end.

(** [R_DAC->DADR[ch]] *)
Definition DADR_at (ch : Z) : reg := REG_DADR (Z.to_nat ch).

Definition with_channel (c : dac_instance_ctrl_t) (ch : Z) :=
  {| channel := ch; channel_opened := channel_opened c;
     output_amplifier_enabled := output_amplifier_enabled c |}.
Definition with_channel_opened (c : dac_instance_ctrl_t) (o : Z) :=
  {| channel := channel c; channel_opened := o;
     output_amplifier_enabled := output_amplifier_enabled c |}.
Definition with_output_amplifier_enabled (c : dac_instance_ctrl_t) (b : bool) :=
  {| channel := channel c; channel_opened := channel_opened c;
     output_amplifier_enabled := b |}.

(** ** The driver *)

Section Driver.

Variable bsp : bsp_cfg.

(** Lines 110-119: the parameter checks of [R_DAC_Open]. *)
Definition Open_param_check (p_ctrl : dac_ctrl_ptr) (p_cfg : option dac_cfg_t)
    (k : M fsp_err_t) : M fsp_err_t :=
  if pp_if (DAC_CFG_PARAM_CHECKING_ENABLE bsp) then
    FSP_ASSERT (match p_cfg with Some _ => true | None => false end) (
    FSP_ASSERT (not_null p_ctrl) (
    do cfg <- load_cfg p_cfg;
    do c <- load_ctrl p_ctrl;
    FSP_ERROR_RETURN
      (cfg_channel cfg <? to_uint8 (BSP_FEATURE_DAC_MAX_CHANNELS bsp))
      FSP_ERR_IP_CHANNEL_NOT_PRESENT (
    FSP_ERROR_RETURN (channel_opened c =? 0) FSP_ERR_ALREADY_OPEN (
    if 1 =? BSP_FEATURE_DAC_HAS_CHARGEPUMP bsp then
      FSP_ASSERT (match p_extend cfg with Some _ => true | None => false end) k
    else k))))
  else k.

Definition R_DAC_Open (p_api_ctrl : dac_ctrl_ptr) (p_cfg : option dac_cfg_t)
    : M fsp_err_t :=
  let p_ctrl := p_api_ctrl in
  Open_param_check p_ctrl p_cfg (
    do cfg <- load_cfg p_cfg;
    (* Power on the DAC device. *)
    R_BSP_MODULE_START FSP_IP_DAC (cfg_channel cfg) ;;
    FSP_CRITICAL_SECTION_ENTER ;;
    (* Stop the channel. *)
    (if 0 =? cfg_channel cfg
     then write_bit REG_DACR DAOE0 false
     else write_bit REG_DACR DAOE1 false) ;;
    FSP_CRITICAL_SECTION_EXIT ;;
    (* Configure data format: left or right justified. *)
    write_reg REG_DADPR
      (to_uint8 (Z.shiftl (to_uint8 (data_format cfg))
                          (to_uint8 DAC_DADPR_REG_DPSEL_BIT_POS))) ;;
    (if pp_if (BSP_FEATURE_ADC_UNIT_1_CHANNELS bsp) then
       do daadscr <- read_reg REG_DAADSCR;
       if (0 =? daadscr) && ad_da_synchronized cfg then
         R_BSP_MODULE_START FSP_IP_ADC (to_uint16 DAC_ADC_UNIT_1) ;;
         write_reg REG_DAADUSR (to_uint8 DAC_DAADUSR_REG_MASK) ;;
         write_reg REG_DAADSCR
           (to_uint8 (Z.shiftl 1 (to_uint8 DAC_DAADSCR_REG_DAADST_BIT_POS)))
       else ret tt
     else
       write_reg REG_DAADSCR
         (to_uint8 (Z.shiftl (Z_of_bool (ad_da_synchronized cfg))
                             (to_uint8 DAC_DAADSCR_REG_DAADST_BIT_POS)))) ;;
    (if pp_if (BSP_FEATURE_DAC_HAS_OUTPUT_AMPLIFIER bsp) then
       do c <- load_ctrl p_ctrl;
       store_ctrl p_ctrl
         (with_output_amplifier_enabled c (cfg_output_amplifier_enabled cfg))
     else ret tt) ;;
    (* Set the reference voltage. *)
    (if pp_if (BSP_FEATURE_DAC_HAS_DAVREFCR bsp)
     then write_reg REG_DAVREFCR (to_uint8 DAC_VREF_AVCC0_AVSS0)
     else ret tt) ;;
    (if 1 =? BSP_FEATURE_DAC_HAS_CHARGEPUMP bsp then
       match p_extend cfg with
       | Some ext =>
           write_reg REG_DAPC (to_uint8 (Z_of_bool (enable_charge_pump ext)))
       | None => undefined
       end
     else ret tt) ;;
    (* Initialize the channel state information. *)
    (do c <- load_ctrl p_ctrl; store_ctrl p_ctrl (with_channel c (cfg_channel cfg))) ;;
    (do c <- load_ctrl p_ctrl; store_ctrl p_ctrl (with_channel_opened c DAC_OPEN)) ;;
    ret FSP_SUCCESS).

(** The handle checks shared by Write, Stop and Close (lines 199-206,
    313-320, 344-351). *)
Definition Handle_param_check (p_ctrl : dac_ctrl_ptr) (k : M fsp_err_t)
    : M fsp_err_t :=
  if pp_if (DAC_CFG_PARAM_CHECKING_ENABLE bsp) then
    FSP_ASSERT (not_null p_ctrl) (
    do c <- load_ctrl p_ctrl;
    FSP_ERROR_RETURN (negb (channel_opened c =? 0)) FSP_ERR_NOT_OPEN k)
  else k.

Definition R_DAC_Write (p_api_ctrl : dac_ctrl_ptr) (value : Z) : M fsp_err_t :=
  let p_ctrl := p_api_ctrl in
  let value := to_uint16 value in
  Handle_param_check p_ctrl (
    do c <- load_ctrl p_ctrl;
    (* Write the value to D/A converter. *)
    write_reg (DADR_at (channel c)) value ;;
    ret FSP_SUCCESS).

(** Lines 226-240: the checks of [R_DAC_Start]. *)
Definition Start_param_check (p_ctrl : dac_ctrl_ptr) (k : M fsp_err_t)
    : M fsp_err_t :=
  if pp_if (DAC_CFG_PARAM_CHECKING_ENABLE bsp) then
    FSP_ASSERT (not_null p_ctrl) (
    do c <- load_ctrl p_ctrl;
    FSP_ERROR_RETURN (negb (channel_opened c =? 0)) FSP_ERR_NOT_OPEN (
    do channel_started <-
      (if 0 =? channel c then read_bit REG_DACR DAOE0
       else read_bit REG_DACR DAOE1);
    FSP_ERROR_RETURN (negb channel_started) FSP_ERR_IN_USE k))
  else k.

(** Lines 289-297: start without the amplifier procedure. *)
Definition Start_plain (c : dac_instance_ctrl_t) : M unit :=
  FSP_CRITICAL_SECTION_ENTER ;;
  (if 0 =? channel c
   then write_bit REG_DACR DAOE0 true
   else write_bit REG_DACR DAOE1 true) ;;
  FSP_CRITICAL_SECTION_EXIT.

(** Lines 246-286: initialization procedure with the output amplifier. *)
Definition Start_amplifier (c : dac_instance_ctrl_t) : M unit :=
  (* Store value intended to be amplified during DAC output *)
  do value <- read_reg (DADR_at (channel c));
  (* Clear the D/A Data Register for the requested channel. *)
  write_reg (DADR_at (channel c)) 0x00 ;;
  FSP_CRITICAL_SECTION_ENTER ;;
  (if 0 =? channel c then
     write_bit REG_DACR DAOE0 false ;;
     write_bit REG_DAASWCR DAASW0 true ;;
     write_bit REG_DAAMPCR DAAMP0 true ;;
     write_bit REG_DACR DAOE0 true
   else
     write_bit REG_DACR DAOE1 false ;;
     write_bit REG_DAASWCR DAASW1 true ;;
     write_bit REG_DAAMPCR DAAMP1 true ;;
     write_bit REG_DACR DAOE1 true) ;;
  FSP_CRITICAL_SECTION_EXIT ;;
  R_BSP_SoftwareDelay (to_uint32 DAC_CONVERSION_TIME_WITH_OUTPUT_AMPLIFIER)
                      BSP_DELAY_UNITS_MICROSECONDS ;;
  FSP_CRITICAL_SECTION_ENTER ;;
  (* Disable D/A Amplifier Stabilization Wait for channel 0 or 1 *)
  (if 0 =? channel c
   then write_bit REG_DAASWCR DAASW0 false
   else write_bit REG_DAASWCR DAASW1 false) ;;
  FSP_CRITICAL_SECTION_EXIT ;;
  (* Revert value intended to be amplified during DAC output. *)
  write_reg (DADR_at (channel c)) value.

Definition R_DAC_Start (p_api_ctrl : dac_ctrl_ptr) : M fsp_err_t :=
  let p_ctrl := p_api_ctrl in
  Start_param_check p_ctrl (
    do c <- load_ctrl p_ctrl;
    (if pp_if (BSP_FEATURE_DAC_HAS_OUTPUT_AMPLIFIER bsp) then
       if output_amplifier_enabled c then Start_amplifier c else Start_plain c
     else Start_plain c) ;;
    ret FSP_SUCCESS).

Definition R_DAC_Stop (p_api_ctrl : dac_ctrl_ptr) : M fsp_err_t :=
  let p_ctrl := p_api_ctrl in
  Handle_param_check p_ctrl (
    do c <- load_ctrl p_ctrl;
    FSP_CRITICAL_SECTION_ENTER ;;
    (* Stop the channel *)
    (if 0 =? channel c
     then write_bit REG_DACR DAOE0 false
     else write_bit REG_DACR DAOE1 false) ;;
    FSP_CRITICAL_SECTION_EXIT ;;
    ret FSP_SUCCESS).

Definition R_DAC_Close (p_api_ctrl : dac_ctrl_ptr) : M fsp_err_t :=
  let p_ctrl := p_api_ctrl in
  Handle_param_check p_ctrl (
    do c <- load_ctrl p_ctrl;
    FSP_CRITICAL_SECTION_ENTER ;;
    (if 0 =? channel c then
       write_bit REG_DACR DAOE0 false ;;
       write_bit REG_DAAMPCR DAAMP0 false
     else
       write_bit REG_DACR DAOE1 false ;;
       write_bit REG_DAAMPCR DAAMP1 false) ;;
    FSP_CRITICAL_SECTION_EXIT ;;
    (* Update the channel state information. *)
    (do c' <- load_ctrl p_ctrl; store_ctrl p_ctrl (with_channel_opened c' 0)) ;;
    ret FSP_SUCCESS).

End Driver.

(** A build for a part with two channels, an output amplifier and a second
    ADC unit, and with parameter checking compiled in. *)
Definition bsp_checked : bsp_cfg :=
  {| DAC_CFG_PARAM_CHECKING_ENABLE := 1;
     BSP_FEATURE_DAC_MAX_CHANNELS := 2;
     BSP_FEATURE_DAC_HAS_CHARGEPUMP := 0;
     BSP_FEATURE_ADC_UNIT_1_CHANNELS := 1;
     BSP_FEATURE_DAC_HAS_OUTPUT_AMPLIFIER := 1;
     BSP_FEATURE_DAC_HAS_DAVREFCR := 0 |}.

(** The same part with parameter checking compiled out. *)
Definition bsp_unchecked : bsp_cfg :=
  {| DAC_CFG_PARAM_CHECKING_ENABLE := 0;
     BSP_FEATURE_DAC_MAX_CHANNELS := 2;
     BSP_FEATURE_DAC_HAS_CHARGEPUMP := 0;
     BSP_FEATURE_ADC_UNIT_1_CHANNELS := 1;
     BSP_FEATURE_DAC_HAS_OUTPUT_AMPLIFIER := 1;
     BSP_FEATURE_DAC_HAS_DAVREFCR := 0 |}.

Definition zero_ctrl : dac_instance_ctrl_t :=
  {| channel := 0; channel_opened := 0; output_amplifier_enabled := false |}.

Definition reset_regs : R_DAC_Type :=
  {| DADR := [0; 0]; DACR := 0; DADPR := 0; DAADSCR := 0; DAVREFCR := 0;
     DAAMPCR := 0; DAPC := 0; DAASWCR := 0; DAADUSR := 0 |}.

Definition fresh_world : world :=
  {| ctrl := zero_ctrl; R_DAC := reset_regs; trace := [] |}.

Definition opened_world : world :=
  {| ctrl := {| channel := 0; channel_opened := DAC_OPEN;
                output_amplifier_enabled := true |};
     R_DAC := reset_regs; trace := [] |}.

(** Channel 0 open with the amplifier enabled, 0xABCD in its data register
    and its output already enabled. *)
Definition started_world : world :=
  {| ctrl := {| channel := 0; channel_opened := DAC_OPEN;
                output_amplifier_enabled := true |};
     R_DAC := {| DADR := [0xABCD; 0]; DACR := 0x40; DADPR := 0; DAADSCR := 0;
                 DAVREFCR := 0; DAAMPCR := 0x40; DAPC := 0; DAASWCR := 0;
                 DAADUSR := 0 |};
     trace := [] |}.

(** The same with the output still disabled. *)
Definition stopped_world : world :=
  {| ctrl := {| channel := 0; channel_opened := DAC_OPEN;
                output_amplifier_enabled := true |};
     R_DAC := {| DADR := [0xABCD; 0]; DACR := 0; DADPR := 0; DAADSCR := 0;
                 DAVREFCR := 0; DAAMPCR := 0; DAPC := 0; DAASWCR := 0;
                 DAADUSR := 0 |};
     trace := [] |}.

Definition cfg0 : dac_cfg_t :=
  {| cfg_channel := 0; ad_da_synchronized := false; data_format := 0;
     cfg_output_amplifier_enabled := true; p_extend := None |}.

(** ** Vocabulary of the properties *)

(** The five operations behind the API table [g_dac_on_dac]. *)
Inductive operation : Set :=
| OpOpen (p_cfg : option dac_cfg_t)
| OpWrite (value : Z)
| OpStart
| OpStop
| OpClose.

Definition call (bsp : bsp_cfg) (p_api_ctrl : dac_ctrl_ptr) (o : operation)
    : M fsp_err_t :=
  match o with
  | OpOpen p_cfg => R_DAC_Open bsp p_api_ctrl p_cfg
  | OpWrite value => R_DAC_Write bsp p_api_ctrl value
  | OpStart => R_DAC_Start bsp p_api_ctrl
  | OpStop => R_DAC_Stop bsp p_api_ctrl
  | OpClose => R_DAC_Close bsp p_api_ctrl
  end.

(** The output-enable bit of channel [ch] in DACR, chosen as the driver
    chooses it. *)
Definition DAOE_of (ch : Z) : Z := if 0 =? ch then DAOE0 else DAOE1.
Definition DAAMP_of (ch : Z) : Z := if 0 =? ch then DAAMP0 else DAAMP1.
Definition DAASW_of (ch : Z) : Z := if 0 =? ch then DAASW0 else DAASW1.

Definition output_enabled (w : world) : bool :=
  bit_get (DACR (R_DAC w)) (DAOE_of (channel (ctrl w))).

(** The data register of the channel the block is bound to. *)
Definition data_register (w : world) : option Z :=
  DADR (R_DAC w) !! Z.to_nat (channel (ctrl w)).

(** The block is open: its sentinel is not zero. *)
Definition is_open (c : dac_instance_ctrl_t) : Prop := channel_opened c <> 0.

(** The block is bound to one of the two channels that have a data
    register. *)
Definition channel_present (c : dac_instance_ctrl_t) : Prop :=
  0 <= channel c < 2.

(** The register block has its two data registers. *)
Definition regs_ok (d : R_DAC_Type) : Prop := length (DADR d) = 2%nat.

(** An opened channel: an open block, bound to a present channel, in front
    of a complete register block. *)
Definition opened_channel (w : world) : Prop :=
  is_open (ctrl w) /\ channel_present (ctrl w) /\ regs_ok (R_DAC w).

(** The amplifier stabilization sequence as the specification words it, for
    channel [ch] whose data register holds [value] while DACR, DAASWCR and
    DAAMPCR hold [dacr], [daaswcr] and [daampcr]: zero the data register;
    in a critical section clear the output-enable bit, set the
    stabilization-wait and the amplifier-control bit, set the output-enable
    bit; wait 4 microseconds; in a critical section clear the
    stabilization-wait bit; write the saved value back. *)
Definition stabilization_sequence (ch value dacr daaswcr daampcr : Z)
    : list event :=
  let bit := 6 + ch in
  [ EvStore (REG_DADR (Z.to_nat ch)) 0;
    EvCriticalEnter;
    EvStore REG_DACR (bit_clear dacr bit);
    EvStore REG_DAASWCR (bit_set daaswcr bit);
    EvStore REG_DAAMPCR (bit_set daampcr bit);
    EvStore REG_DACR (bit_set (bit_clear dacr bit) bit);
    EvCriticalExit;
    EvSoftwareDelay 4 BSP_DELAY_UNITS_MICROSECONDS;
    EvCriticalEnter;
    EvStore REG_DAASWCR (bit_clear (bit_set daaswcr bit) bit);
    EvCriticalExit;
    EvStore (REG_DADR (Z.to_nat ch)) value ].

(** Start has run the stabilization sequence and handed the data register
    back with the value it had. *)
Definition start_stabilizes (bsp : bsp_cfg) (w : world) : Prop :=
  exists value w',
    data_register w = Some value /\
    R_DAC_Start bsp P_CTRL w = Done FSP_SUCCESS w' /\
    trace w' = trace w ++
      stabilization_sequence (channel (ctrl w)) value (DACR (R_DAC w))
        (DAASWCR (R_DAC w)) (DAAMPCR (R_DAC w)) /\
    data_register w' = Some value.

(** Open goes through and marks the block opened, and Open once more is
    refused as already open. *)
Definition open_then_already_open (bsp : bsp_cfg) (w : world)
    (cfg : dac_cfg_t) : Prop :=
  exists w1,
    R_DAC_Open bsp P_CTRL (Some cfg) w = Done FSP_SUCCESS w1 /\
    channel_opened (ctrl w1) = DAC_OPEN /\
    R_DAC_Open bsp P_CTRL (Some cfg) w1 = Done FSP_ERR_ALREADY_OPEN w1.

(** Code that can only leave with [FSP_SUCCESS]. *)
Definition only_success (m : M fsp_err_t) : Prop :=
  forall w e w', m w = Done e w' -> e = FSP_SUCCESS.

(** Code that either leaves the world alone or leaves with success. *)
Definition error_is_clean (m : M fsp_err_t) : Prop :=
  forall w e w', m w = Done e w' -> is_error e = true -> w' = w.

(** A configuration [R_DAC_Open] accepts in build [bsp]: the channel exists
    on the part and, where the part has a charge pump, the extended
    configuration is present.  The data format is flush right (0) or flush
    left (1); [R_DAC_Open] itself does not examine it. *)
Definition valid_cfg (bsp : bsp_cfg) (cfg : dac_cfg_t) : Prop :=
  0 <= cfg_channel cfg < to_uint8 (BSP_FEATURE_DAC_MAX_CHANNELS bsp) /\
  (data_format cfg = 0 \/ data_format cfg = 1) /\
  (BSP_FEATURE_DAC_HAS_CHARGEPUMP bsp = 1 -> p_extend cfg <> None).

(** ** Version query *)

Section Version.

Variable bsp : bsp_cfg.

(** [g_dac_version.version_id]: the word that overlays the four version
    fields.  The version macros are defined outside these sources. *)
Variable g_dac_version_id : Z.

(** [p_version] is null or points to a version word; the result carries the
    word found there on return. *)
Definition R_DAC_VersionGet (p_version : option Z)
    : M (fsp_err_t * option Z) :=
  let FSP_ASSERT' (a : bool) (k : M (fsp_err_t * option Z)) :=
    if a then k else ret (FSP_ERR_ASSERTION, p_version) in
  (if pp_if (DAC_CFG_PARAM_CHECKING_ENABLE bsp)
   then FSP_ASSERT' (match p_version with Some _ => true | None => false end)
   else fun k => k)
    match p_version with
    | None => undefined
    | Some _ => ret (FSP_SUCCESS, Some g_dac_version_id)
    end.

End Version.

(** ** Discipline of the critical sections

    [critical_ok inside l]: along [l], started inside or outside a critical
    section, sections are entered and left in turn and all are left at the
    end; every store to a register that the driver updates bit by bit (DACR,
    DAAMPCR, DAASWCR) happens inside a section, and the software delay
    outside. *)
Fixpoint critical_ok (inside : bool) (l : list event) : bool :=
  match l with
  | [] => negb inside
  | EvCriticalEnter :: l' => negb inside && critical_ok true l'
  | EvCriticalExit :: l' => inside && critical_ok false l'
  | EvStore REG_DACR _ :: l'
  | EvStore REG_DAAMPCR _ :: l'
  | EvStore REG_DAASWCR _ :: l' => inside && critical_ok inside l'
  | EvSoftwareDelay _ _ :: l' => negb inside && critical_ok inside l'
  | _ :: l' => critical_ok inside l'
  end.

(** The channel next to [ch]. *)
Definition other_channel (ch : Z) : Z := 1 - ch.

(** The operations that take only the handle of an opened channel. *)
Definition takes_handle (o : operation) : bool :=
  match o with OpOpen _ => false | _ => true end.

(** Channel 1 open without the amplifier, channel 0 running beside it. *)
Definition two_channel_world : world :=
  {| ctrl := {| channel := 1; channel_opened := DAC_OPEN;
                output_amplifier_enabled := false |};
     R_DAC := {| DADR := [0x0111; 0x0222]; DACR := 0x40; DADPR := 0;
                 DAADSCR := 0x80; DAVREFCR := 0; DAAMPCR := 0x40; DAPC := 0;
                 DAASWCR := 0; DAADUSR := 0x02 |};
     trace := [] |}.

(** A closed block in front of registers that still have synchronization
    with ADC unit 1 switched on. *)
Definition synced_closed_world : world :=
  {| ctrl := zero_ctrl;
     R_DAC := {| DADR := [0; 0]; DACR := 0; DADPR := 0; DAADSCR := 0x80;
                 DAVREFCR := 0; DAAMPCR := 0; DAPC := 0; DAASWCR := 0;
                 DAADUSR := 0x02 |};
     trace := [] |}.

(** A part with a charge pump and a reference-voltage register, no second
    ADC unit and one channel. *)
Definition bsp_small : bsp_cfg :=
  {| DAC_CFG_PARAM_CHECKING_ENABLE := 1;
     BSP_FEATURE_DAC_MAX_CHANNELS := 1;
     BSP_FEATURE_DAC_HAS_CHARGEPUMP := 1;
     BSP_FEATURE_ADC_UNIT_1_CHANNELS := 0;
     BSP_FEATURE_DAC_HAS_OUTPUT_AMPLIFIER := 0;
     BSP_FEATURE_DAC_HAS_DAVREFCR := 1 |}.


End DAC.

(** * The platform key shim (crypto_keys.c) *)

Module HUK.

Definition SHA256_LEN_BYTES : Z := 32.

Inductive tfm_plat_err_t : Set :=
| TFM_PLAT_ERR_SUCCESS
| TFM_PLAT_ERR_SYSTEM_ERR.

(** [psa_status_t] is a 32-bit integer; success is zero. *)
Definition psa_status_t : Set := Z.
Definition PSA_SUCCESS : psa_status_t := 0.

(** Memory is bytes; a byte is an integer below 256.  A buffer is the list
    of the bytes a pointer may be used to reach; an access past its end is
    undefined behaviour, [None] below. *)
Definition uint8_t : Set := Z.

(** The bytes [p[0 .. size-1]] handed to a callee as pointer and size. *)
Definition bytes_at (p : list uint8_t) (size : Z) : option (list uint8_t) :=
  if size <=? Z.of_nat (length p) then Some (take (Z.to_nat size) p) else None.

(** [copy_key]: [i] counts down from [size]; [d] and [s] are how far
    [p_dst] and [p_src] have been advanced. *)
Fixpoint copy_key_loop (i : nat) (dst src : list uint8_t) (d s : nat)
    : option (list uint8_t) :=
  match i with
  | O => Some dst
  | S i' =>
      match src !! s, dst !! d with
      | Some b, Some _ => copy_key_loop i' (<[d := b]> dst) src (S d) (S s)
      | _, _ => None
      end
  end.

Definition copy_key (p_dst p_src : list uint8_t) (size : Z)
    : option (list uint8_t) :=
  let i := to_uint32 size in
  copy_key_loop (Z.to_nat i) p_dst p_src 0 0.

(** The PSA hash interface the shim calls.  Its implementation is not part
    of these sources: a provider is any choice of the operation object and
    of the three calls, each a function of the operation object and its
    arguments, returning the status and what it wrote through its pointer
    arguments.  [psa_hash_finish] receives the output buffer of [hash_size]
    bytes and returns its new contents and [*hash_length]. *)
Record psa_hash_provider : Type := {
  psa_hash_operation_t : Type;
  psa_hash_operation_zero : psa_hash_operation_t;
  PSA_ALG_SHA_256 : Z;
  psa_hash_setup :
    psa_hash_operation_t -> Z -> psa_status_t * psa_hash_operation_t;
  psa_hash_update :
    psa_hash_operation_t -> list uint8_t -> psa_status_t * psa_hash_operation_t;
  psa_hash_finish :
    psa_hash_operation_t -> list uint8_t ->
    psa_status_t * psa_hash_operation_t * list uint8_t * Z
}.

(** [struct ecc_key_t]; its pointers are null or the caller's key buffer. *)
Inductive key_ptr : Set := KEY_NULL | KEY_BUF.

Record ecc_key_t : Set := {
  priv_key : key_ptr;
  priv_key_size : Z;
  pubx_key : key_ptr;
  pubx_key_size : Z;
  puby_key : key_ptr;
  puby_key_size : Z
}.

Section Shim.

Variable provider : psa_hash_provider.

(** The bytes of the object [R_BSP_UniqueIdGet()] points to, all
    [sizeof(bsp_unique_id_t)] of them. *)
Variable unique_id : list uint8_t.

(** The attestation key material, defined in another translation unit. *)
Variable initial_attestation_curve_type : Z.
Variable initial_attestation_private_key : list uint8_t.
Variable initial_attestation_private_key_size : Z.

(** The result is the status with the contents of the key buffer on
    return. *)
Definition tfm_plat_get_huk_derived_key
    (label : list uint8_t) (label_size : Z)
    (context : list uint8_t) (context_size : Z)
    (key : list uint8_t) (key_size : Z)
    : option (tfm_plat_err_t * list uint8_t) :=
  let alg := PSA_ALG_SHA_256 provider in
  let operation := psa_hash_operation_zero provider in
  let hash := repeat 0 (Z.to_nat SHA256_LEN_BYTES) in
  if key_size >? SHA256_LEN_BYTES then Some (TFM_PLAT_ERR_SYSTEM_ERR, key)
  else
    let p_unique_id := unique_id in
    let '(status, operation) := psa_hash_setup provider operation alg in
    if negb (PSA_SUCCESS =? status) then Some (TFM_PLAT_ERR_SYSTEM_ERR, key)
    else
      match bytes_at label label_size with
      | None => None
      | Some label_bytes =>
          let '(status, operation) :=
            psa_hash_update provider operation label_bytes in
          if negb (PSA_SUCCESS =? status)
          then Some (TFM_PLAT_ERR_SYSTEM_ERR, key)
          else
            let '(status, operation) :=
              psa_hash_update provider operation p_unique_id in
            if negb (PSA_SUCCESS =? status)
            then Some (TFM_PLAT_ERR_SYSTEM_ERR, key)
            else
              let '(status, operation, hash, hash_len) :=
                psa_hash_finish provider operation hash in
              if negb (PSA_SUCCESS =? status)
              then Some (TFM_PLAT_ERR_SYSTEM_ERR, key)
              else
                match copy_key key hash key_size with
                | None => None
                | Some key' => Some (TFM_PLAT_ERR_SUCCESS, key')
                end
      end.

(** What the caller passed in and finds on return: the key buffer, the key
    descriptor and the curve type. *)
Record attest_out : Set := {
  key_buf : list uint8_t;
  ecc_key : ecc_key_t;
  curve_type : Z
}.

Definition tfm_plat_get_initial_attest_key (out : attest_out) (size : Z)
    : option (tfm_plat_err_t * attest_out) :=
  let key_size := to_uint32 initial_attestation_private_key_size in
  if size <? key_size then Some (TFM_PLAT_ERR_SYSTEM_ERR, out)
  else
    (* Set the EC curve type which the key belongs to *)
    let curve_type' := initial_attestation_curve_type in
    (* Copy the private key to the buffer, it MUST be present *)
    match copy_key (key_buf out) initial_attestation_private_key key_size with
    | None => None
    | Some key_buf' =>
        let rc := 0 in
        if negb (rc =? 0)
        then Some (TFM_PLAT_ERR_SYSTEM_ERR,
                   {| key_buf := key_buf'; ecc_key := ecc_key out;
                      curve_type := curve_type' |})
        else
          Some (TFM_PLAT_ERR_SUCCESS,
                {| key_buf := key_buf';
                   ecc_key := {| priv_key := KEY_BUF;
                                 priv_key_size := key_size;
                                 pubx_key := KEY_NULL; pubx_key_size := 0;
                                 puby_key := KEY_NULL; puby_key_size := 0 |};
                   curve_type := curve_type' |})
    end.

End Shim.

End HUK.

(** * SHA-256, for reference

    The hash the shim asks its provider for, written out after FIPS 180-4
    over bytes and 32-bit words as integers.  It is no part of the two C
    files; it serves to exhibit a provider that meets the contract the
    properties of the shim assume. *)

Module SHA256.

Definition w32 (z : Z) : Z := z mod 4294967296.
Definition rotr (n x : Z) : Z :=
  Z.lor (Z.shiftr x n) (w32 (Z.shiftl x (32 - n))).
Definition shr (n x : Z) : Z := Z.shiftr x n.
Definition xor3 (a b c : Z) : Z := Z.lxor (Z.lxor a b) c.
Definition Ch (x y z : Z) : Z :=
  Z.lxor (Z.land x y) (Z.land (Z.lxor x 0xFFFFFFFF) z).
Definition Maj (x y z : Z) : Z :=
  xor3 (Z.land x y) (Z.land x z) (Z.land y z).
Definition Sigma0 (x : Z) : Z := xor3 (rotr 2 x) (rotr 13 x) (rotr 22 x).
Definition Sigma1 (x : Z) : Z := xor3 (rotr 6 x) (rotr 11 x) (rotr 25 x).
Definition sigma0 (x : Z) : Z := xor3 (rotr 7 x) (rotr 18 x) (shr 3 x).
Definition sigma1 (x : Z) : Z := xor3 (rotr 17 x) (rotr 19 x) (shr 10 x).

(** The round constants are the first 32 bits of the fractional parts of
    the cube roots of the first 64 primes, the initial hash value those of
    the square roots of the first 8. *)
Definition is_prime (n : Z) : bool :=
  (1 <? n) &&
  forallb (fun d => negb (n mod Z.of_nat d =? 0)) (seq 2 (Z.to_nat n - 2)).

Definition primes (count : nat) : list Z :=
  take count (filter (fun n => is_prime n = true) (map Z.of_nat (seq 2 310))).

(** The integer cube root of [n], below [2 ^ bits], found bit by bit. *)
Fixpoint icbrt (bits : nat) (n r : Z) : Z :=
  match bits with
  | O => r
  | S b =>
      let r' := r + 2 ^ Z.of_nat b in
      icbrt b n (if r' * r' * r' <=? n then r' else r)
  end.

Definition K : list Z :=
  Eval vm_compute in map (fun p => w32 (icbrt 36 (p * 2 ^ 96) 0)) (primes 64).

Definition H0 : list Z :=
  Eval vm_compute in map (fun p => w32 (Z.sqrt (p * 2 ^ 64))) (primes 8).

(** Big-endian bytes of [z], [n] of them. *)
Fixpoint be_bytes (n : nat) (z : Z) : list Z :=
  match n with
  | O => []
  | S n' => (Z.shiftr z (8 * Z.of_nat n')) mod 256 :: be_bytes n' z
  end.

Definition be_word (b : list Z) : Z :=
  fold_left (fun acc x => acc * 256 + x) b 0.

Definition pad (m : list Z) : list Z :=
  let l := Z.of_nat (length m) in
  m ++ [0x80] ++ repeat 0 (Z.to_nat ((55 - l) mod 64)) ++ be_bytes 8 (8 * l).

(** The first [n] words of a block. *)
Fixpoint words (n : nat) (b : list Z) : list Z :=
  match n with
  | O => []
  | S n' => be_word (take 4 b) :: words n' (drop 4 b)
  end.

(** The message schedule, latest word first. *)
Fixpoint schedule (n : nat) (w : list Z) : list Z :=
  match n with
  | O => w
  | S n' =>
      let x := w32 (sigma1 (nth 1 w 0) + nth 6 w 0 +
                    sigma0 (nth 14 w 0) + nth 15 w 0) in
      schedule n' (x :: w)
  end.

Definition round (s : list Z) (kw : Z * Z) : list Z :=
  match s with
  | [a; b; c; d; e; f; g; h] =>
      let t1 := w32 (h + Sigma1 e + Ch e f g + fst kw + snd kw) in
      let t2 := w32 (Sigma0 a + Maj a b c) in
      [w32 (t1 + t2); a; b; c; w32 (d + t1); e; f; g]
  | _ => s
  end.

Definition compress (h : list Z) (block : list Z) : list Z :=
  let w := rev (schedule 48 (rev (words 16 block))) in
  let s := fold_left round (combine K w) h in
  map (fun p => w32 (fst p + snd p)) (combine h s).

Fixpoint blocks (n : nat) (h : list Z) (m : list Z) : list Z :=
  match n with
  | O => h
  | S n' => blocks n' (compress h (take 64 m)) (drop 64 m)
  end.

Definition digest (m : list Z) : list Z :=
  let p := pad m in
  flat_map (be_bytes 4) (blocks (Nat.div (length p) 64) H0 p).

End SHA256.

Module HUKModel.
Import HUK.

(** The contract of a provider that computes the digest [H]: [absorbed op m]
    says that [op] is an active operation that has taken in the message [m]
    so far.  A successful setup starts with the empty message, a successful
    update appends its data, and a successful finish into a buffer of
    [SHA256_LEN_BYTES] bytes leaves there the digest of the message, which is
    that long. *)
Record provider_computes (P : psa_hash_provider)
    (H : list uint8_t -> list uint8_t)
    (absorbed : psa_hash_operation_t P -> list uint8_t -> Prop) : Prop := {
  digest_length : forall m, length (H m) = Z.to_nat SHA256_LEN_BYTES;
  setup_absorbed : forall op op',
    psa_hash_setup P op (PSA_ALG_SHA_256 P) = (PSA_SUCCESS, op') ->
    absorbed op' [];
  update_absorbed : forall op m data op',
    absorbed op m ->
    psa_hash_update P op data = (PSA_SUCCESS, op') ->
    absorbed op' (m ++ data);
  finish_digest : forall op m buf op' buf' len,
    absorbed op m ->
    length buf = Z.to_nat SHA256_LEN_BYTES ->
    psa_hash_finish P op buf = (PSA_SUCCESS, op', buf', len) ->
    buf' = H m
}.

(** Every hash step of the derivation returns [PSA_SUCCESS]. *)
Definition hash_steps_succeed (P : psa_hash_provider)
    (label_bytes unique_id : list uint8_t) : Prop :=
  exists op1 op2 op3 op4 hash hash_len,
    psa_hash_setup P (psa_hash_operation_zero P) (PSA_ALG_SHA_256 P)
      = (PSA_SUCCESS, op1) /\
    psa_hash_update P op1 label_bytes = (PSA_SUCCESS, op2) /\
    psa_hash_update P op2 unique_id = (PSA_SUCCESS, op3) /\
    psa_hash_finish P op3 (repeat 0 (Z.to_nat SHA256_LEN_BYTES))
      = (PSA_SUCCESS, op4, hash, hash_len).

(** A provider in the manner of the PSA specification, around the reference
    digest: an operation is inactive or holds the message absorbed so far;
    calls made in the wrong state or with another algorithm fail. *)
Definition PSA_ERROR_NOT_SUPPORTED : psa_status_t := -134.
Definition PSA_ERROR_BAD_STATE : psa_status_t := -137.
Definition PSA_ERROR_BUFFER_TOO_SMALL : psa_status_t := -138.

Definition reference_provider : psa_hash_provider :=
  {| psa_hash_operation_t := option (list uint8_t);
     psa_hash_operation_zero := None;
     PSA_ALG_SHA_256 := 0x02000009;
     psa_hash_setup := fun op alg =>
       match op with
       | Some _ => (PSA_ERROR_BAD_STATE, None)
       | None => if alg =? 0x02000009 then (PSA_SUCCESS, Some [])
                 else (PSA_ERROR_NOT_SUPPORTED, None)
       end;
     psa_hash_update := fun op data =>
       match op with
       | Some m => (PSA_SUCCESS, Some (m ++ data))
       | None => (PSA_ERROR_BAD_STATE, None)
       end;
     psa_hash_finish := fun op buf =>
       match op with
       | Some m =>
           if (32 <=? length buf)%nat
           then (PSA_SUCCESS, None, SHA256.digest m ++ drop 32 buf, 32)
           else (PSA_ERROR_BUFFER_TOO_SMALL, None, buf, 0)
       | None => (PSA_ERROR_BAD_STATE, None, buf, 0)
       end |}.

Definition reference_absorbed
    (op : psa_hash_operation_t reference_provider) (m : list uint8_t) : Prop :=
  op = Some m.

(** A provider whose setup always fails. *)
Definition failing_provider : psa_hash_provider :=
  {| psa_hash_operation_t := unit;
     psa_hash_operation_zero := tt;
     PSA_ALG_SHA_256 := 0x02000009;
     psa_hash_setup := fun op _ => (PSA_ERROR_NOT_SUPPORTED, op);
     psa_hash_update := fun op _ => (PSA_ERROR_BAD_STATE, op);
     psa_hash_finish := fun op buf => (PSA_ERROR_BAD_STATE, op, buf, 0) |}.

(** Sample data: a sixteen byte unique identifier, a label, and a key
    buffer of forty bytes. *)
Definition sample_unique_id : list uint8_t :=
  [0x10; 0x11; 0x12; 0x13; 0x14; 0x15; 0x16; 0x17;
   0x18; 0x19; 0x1a; 0x1b; 0x1c; 0x1d; 0x1e; 0x1f].
Definition sample_label : list uint8_t := [0x53; 0x53; 0x54].
Definition sample_key_buffer : list uint8_t := repeat 0xEE 40.

End HUKModel.

(** * Properties of the DAC driver *)

Module DACSpec.
Import DAC.

(** ** Bit-fields *)

Lemma bit_get_set r pos : 0 <= pos -> bit_get (bit_set r pos) pos = true.
Proof.
  intros Hpos. unfold bit_get, bit_set.
  rewrite Z.lor_spec, Z.shiftl_spec by assumption.
  rewrite Z.sub_diag. simpl. apply orb_true_r.
Qed.

Lemma bit_get_clear r pos : 0 <= pos -> bit_get (bit_clear r pos) pos = false.
Proof.
  intros Hpos. unfold bit_get, bit_clear.
  rewrite Z.ldiff_spec, Z.shiftl_spec by assumption.
  rewrite Z.sub_diag. simpl. apply andb_false_r.
Qed.

Lemma DAOE_of_nonneg ch : 0 <= DAOE_of ch.
Proof. unfold DAOE_of. destruct (0 =? ch); vm_compute; discriminate. Qed.

Lemma DAOE_of_channel ch :
  0 <= ch < 2 -> DAOE_of ch = DAC_DACR_DAOE_BITS + ch.
Proof.
  intros H. assert (ch = 0 \/ ch = 1) as [-> | ->] by lia; reflexivity.
Qed.

(** ** Running monadic code *)

Lemma bind_Done {A B} (m : M A) (k : A -> M B) w a w1 :
  m w = Done a w1 -> bind m k w = k a w1.
Proof. intros H. unfold bind. now rewrite H. Qed.

Lemma bind_inv {A B} (m : M A) (k : A -> M B) w b w2 :
  bind m k w = Done b w2 ->
  exists a w1, m w = Done a w1 /\ k a w1 = Done b w2.
Proof.
  unfold bind. destruct (m w) as [a w1|]; [|discriminate].
  intros H. now exists a, w1.
Qed.

Lemma only_success_ret : only_success (ret FSP_SUCCESS).
Proof. intros w e w' H. unfold ret in H. congruence. Qed.

Lemma only_success_bind {A} (m : M A) k :
  (forall a, only_success (k a)) -> only_success (bind m k).
Proof.
  intros Hk w e w' H. apply bind_inv in H as (a & w1 & _ & H).
  eapply Hk; eassumption.
Qed.

Lemma only_success_clean m : only_success m -> error_is_clean m.
Proof.
  intros Hm w e w' H He. apply Hm in H. subst e. discriminate.
Qed.

Lemma FSP_ERROR_RETURN_clean a err k :
  error_is_clean k -> error_is_clean (FSP_ERROR_RETURN a err k).
Proof.
  intros Hk. unfold FSP_ERROR_RETURN. destruct a; [assumption|].
  intros w e w' H _. unfold ret in H. congruence.
Qed.

Lemma load_ctrl_clean p k :
  (forall c, error_is_clean (k c)) -> error_is_clean (bind (load_ctrl p) k).
Proof.
  intros Hk w e w' H. apply bind_inv in H as (c & w1 & Hl & H).
  destruct p; simpl in Hl; [discriminate|].
  injection Hl as <- <-. eapply Hk; eassumption.
Qed.

Lemma load_cfg_clean p k :
  (forall c, error_is_clean (k c)) -> error_is_clean (bind (load_cfg p) k).
Proof.
  intros Hk w e w' H. apply bind_inv in H as (c & w1 & Hl & H).
  destruct p; simpl in Hl; [|discriminate].
  injection Hl as <- <-. eapply Hk; eassumption.
Qed.

Lemma read_bit_DACR_clean pos k :
  (forall b, error_is_clean (k b)) ->
  error_is_clean (bind (read_bit REG_DACR pos) k).
Proof.
  intros Hk w e w' H. apply bind_inv in H as (c & w1 & Hl & H).
  cbv in Hl. injection Hl as <- <-. eapply Hk; eassumption.
Qed.

Lemma Open_param_check_clean bsp p p_cfg k :
  only_success k -> error_is_clean (Open_param_check bsp p p_cfg k).
Proof.
  intros Hk. apply only_success_clean in Hk. unfold Open_param_check, FSP_ASSERT.
  destruct (pp_if _); [|assumption].
  repeat (apply FSP_ERROR_RETURN_clean).
  apply load_cfg_clean; intros cfg. apply load_ctrl_clean; intros c.
  repeat (apply FSP_ERROR_RETURN_clean).
  destruct (1 =? _); [apply FSP_ERROR_RETURN_clean|]; assumption.
Qed.

Lemma Handle_param_check_clean bsp p k :
  only_success k -> error_is_clean (Handle_param_check bsp p k).
Proof.
  intros Hk. apply only_success_clean in Hk. unfold Handle_param_check, FSP_ASSERT.
  destruct (pp_if _); [|assumption].
  apply FSP_ERROR_RETURN_clean, load_ctrl_clean; intros c.
  now apply FSP_ERROR_RETURN_clean.
Qed.

Lemma Start_param_check_clean bsp p k :
  only_success k -> error_is_clean (Start_param_check bsp p k).
Proof.
  intros Hk. apply only_success_clean in Hk. unfold Start_param_check, FSP_ASSERT.
  destruct (pp_if _); [|assumption].
  apply FSP_ERROR_RETURN_clean, load_ctrl_clean; intros c.
  apply FSP_ERROR_RETURN_clean.
  destruct (0 =? _); apply read_bit_DACR_clean; intros b;
    now apply FSP_ERROR_RETURN_clean.
Qed.

(** C2. Whenever Open, Write, Start, Stop or Close returns an error status,
    the control block and the registers are as they were before the call
    and nothing was appended to the trace: no register was stored to and no
    external service was called. *)
Theorem error_return_leaves_world_unchanged bsp p_api_ctrl o w e w' :
  call bsp p_api_ctrl o w = Done e w' ->
  is_error e = true ->
  w' = w.
Proof.
  revert w e w'. change (error_is_clean (call bsp p_api_ctrl o)).
  destruct o; simpl;
    [ apply Open_param_check_clean
    | apply Handle_param_check_clean
    | apply Start_param_check_clean
    | apply Handle_param_check_clean
    | apply Handle_param_check_clean ];
    repeat (apply only_success_bind; intros); apply only_success_ret.
Qed.

Lemma error_return_leaves_world_unchanged_witness :
  call bsp_checked P_CTRL (OpWrite 0x0200) fresh_world
    = Done FSP_ERR_NOT_OPEN fresh_world /\
  is_error FSP_ERR_NOT_OPEN = true /\
  fresh_world = fresh_world.
Proof.
  split; [reflexivity|]. split; [reflexivity|].
  apply (error_return_leaves_world_unchanged bsp_checked P_CTRL
           (OpWrite 0x0200) fresh_world FSP_ERR_NOT_OPEN fresh_world);
    reflexivity.
Defined.

(** Symbolic execution: unfold the monad and the register file, and nothing
    of the arithmetic. *)
Ltac exec :=
  repeat progress
    (cbv beta iota zeta delta
       [bind ret undefined emit get_regs put_regs load_ctrl store_ctrl
        load_cfg read_reg write_reg write_bit read_bit set_reg bit_write
        R_BSP_MODULE_START R_BSP_SoftwareDelay
        FSP_CRITICAL_SECTION_ENTER FSP_CRITICAL_SECTION_EXIT
        FSP_ERROR_RETURN FSP_ASSERT not_null negb andb
        with_channel with_channel_opened with_output_amplifier_enabled
        ctrl R_DAC trace channel channel_opened output_amplifier_enabled
        DADR DACR DADPR DAADSCR DAVREFCR DAAMPCR DAPC DAASWCR DAADUSR
        cfg_channel ad_da_synchronized data_format
        cfg_output_amplifier_enabled p_extend enable_charge_pump
        DADR_at Z.to_nat Pos.to_nat Pos.iter_op Nat.add
        lookup list_lookup insert list_insert];
     change (0 =? 0) with true; change (0 =? 1) with false).

(** Execution with case analysis on every test that does not reduce,
    preferring a hypothesis that settles the test. *)
Ltac run :=
  repeat (exec;
          try match goal with
              | H : ?b = true |- context [if ?b then _ else _] => rewrite H
              | H : ?b = false |- context [if ?b then _ else _] => rewrite H
              | |- context [if ?b then _ else _] => destruct b eqn:?
              end).

(** Splitting a world into its fields, the block and the registers too. *)
Ltac split_world w :=
  let c := fresh "c" in let d := fresh "d" in let t := fresh "t" in
  destruct w as [c d t]; destruct c as [ch opened amp];
  destruct d as [dadr dacr dadpr daadscr davrefcr daampcr dapc daaswcr daadusr];
  unfold is_open, channel_present, regs_ok, output_enabled, data_register in *;
  cbn [ctrl R_DAC trace channel channel_opened output_amplifier_enabled
       DADR DACR DADPR DAADSCR DAVREFCR DAAMPCR DAPC DAASWCR DAADUSR] in *.

(** The two data registers and the channel that indexes them, made
    concrete. *)
Ltac two_channels ch dadr :=
  match goal with
  | Hlen : length dadr = 2%nat, Hch : 0 <= ch < 2 |- _ =>
      destruct dadr as [|dadr0 [|dadr1 [|? ?]]]; try discriminate Hlen;
      let H := fresh in
      assert (ch = 0 \/ ch = 1) as [H | H] by lia; subst ch
  end.

Ltac sentinel opened :=
  match goal with
  | H : opened <> 0 |- _ => apply Z.eqb_neq in H
  | H : opened = 0 |- _ => apply Z.eqb_eq in H
  end.

(** C4. With parameter checking compiled in, Write, Start, Stop and Close on
    a block whose opened sentinel is zero each return FSP_ERR_NOT_OPEN (and
    leave the world as it is). *)
Theorem closed_block_is_not_open bsp w value :
  pp_if (DAC_CFG_PARAM_CHECKING_ENABLE bsp) = true ->
  channel_opened (ctrl w) = 0 ->
  R_DAC_Write bsp P_CTRL value w = Done FSP_ERR_NOT_OPEN w /\
  R_DAC_Start bsp P_CTRL w = Done FSP_ERR_NOT_OPEN w /\
  R_DAC_Stop bsp P_CTRL w = Done FSP_ERR_NOT_OPEN w /\
  R_DAC_Close bsp P_CTRL w = Done FSP_ERR_NOT_OPEN w.
Proof.
  intros Hchk Hclosed.
  unfold R_DAC_Write, R_DAC_Start, R_DAC_Stop, R_DAC_Close,
    Handle_param_check, Start_param_check.
  rewrite Hchk. split_world w. sentinel opened.
  cbn. rewrite Hclosed. cbn. repeat split.
Qed.

Lemma closed_block_is_not_open_witness :
  R_DAC_Write bsp_checked P_CTRL 0x0200 fresh_world
    = Done FSP_ERR_NOT_OPEN fresh_world /\
  R_DAC_Start bsp_checked P_CTRL fresh_world
    = Done FSP_ERR_NOT_OPEN fresh_world /\
  R_DAC_Stop bsp_checked P_CTRL fresh_world
    = Done FSP_ERR_NOT_OPEN fresh_world /\
  R_DAC_Close bsp_checked P_CTRL fresh_world
    = Done FSP_ERR_NOT_OPEN fresh_world.
Proof.
  apply (closed_block_is_not_open bsp_checked fresh_world 0x0200);
    reflexivity.
Defined.

(** C8. On an open block bound to a present channel, Write of a 16-bit
    value returns success; afterwards the channel's data register holds the
    value, the other data register and every other register (DACR with the
    output-enable bits among them) are as before, the control block is as
    before, and exactly one store, the one to the data register, was
    traced. *)
Theorem write_stores_value_only bsp w value :
  is_open (ctrl w) ->
  channel_present (ctrl w) ->
  regs_ok (R_DAC w) ->
  0 <= value < 65536 ->
  exists w',
    R_DAC_Write bsp P_CTRL value w = Done FSP_SUCCESS w' /\
    data_register w' = Some value /\
    (forall i, i <> Z.to_nat (channel (ctrl w)) ->
       DADR (R_DAC w') !! i = DADR (R_DAC w) !! i) /\
    length (DADR (R_DAC w')) = length (DADR (R_DAC w)) /\
    DACR (R_DAC w') = DACR (R_DAC w) /\
    DADPR (R_DAC w') = DADPR (R_DAC w) /\
    DAADSCR (R_DAC w') = DAADSCR (R_DAC w) /\
    DAVREFCR (R_DAC w') = DAVREFCR (R_DAC w) /\
    DAAMPCR (R_DAC w') = DAAMPCR (R_DAC w) /\
    DAPC (R_DAC w') = DAPC (R_DAC w) /\
    DAASWCR (R_DAC w') = DAASWCR (R_DAC w) /\
    DAADUSR (R_DAC w') = DAADUSR (R_DAC w) /\
    output_enabled w' = output_enabled w /\
    ctrl w' = ctrl w /\
    trace w' = trace w ++ [EvStore (DADR_at (channel (ctrl w))) value].
Proof.
  intros Hopen Hch Hlen Hv.
  unfold R_DAC_Write, Handle_param_check, to_uint16.
  rewrite (Z.mod_small value) by lia.
  split_world w. sentinel opened. two_channels ch dadr.
  all: destruct (pp_if _); cbn; rewrite ?Hopen; cbn.
  all: eexists; split; [reflexivity|]; cbn.
  all: repeat split; try reflexivity.
  all: intros [|[|i]] Hi; try reflexivity; now elim Hi.
Qed.

Lemma write_stores_value_only_witness :
  exists w',
    R_DAC_Write bsp_checked P_CTRL 0x0200 opened_world = Done FSP_SUCCESS w' /\
    data_register w' = Some 0x0200 /\
    DACR (R_DAC w') = 0.
Proof.
  destruct (write_stores_value_only bsp_checked opened_world 0x0200)
    as (w' & Hrun & Hdata & _ & _ & Hdacr & _).
  - unfold is_open. simpl. discriminate.
  - unfold channel_present. simpl. lia.
  - reflexivity.
  - lia.
  - exists w'. repeat split; assumption.
Defined.

(** ** What each operation does when it goes through *)

Lemma Open_ok bsp w cfg :
  channel_opened (ctrl w) = 0 ->
  valid_cfg bsp cfg ->
  exists w1,
    R_DAC_Open bsp P_CTRL (Some cfg) w = Done FSP_SUCCESS w1 /\
    channel (ctrl w1) = cfg_channel cfg /\
    channel_opened (ctrl w1) = DAC_OPEN /\
    (pp_if (BSP_FEATURE_DAC_HAS_OUTPUT_AMPLIFIER bsp) = true ->
     output_amplifier_enabled (ctrl w1) = cfg_output_amplifier_enabled cfg) /\
    DADR (R_DAC w1) = DADR (R_DAC w) /\
    output_enabled w1 = false.
Proof.
  intros Hclosed (Hch & _ & Hext).
  unfold R_DAC_Open, Open_param_check, FSP_ASSERT, FSP_ERROR_RETURN.
  split_world w. sentinel opened.
  destruct cfg as [cch sync fmt camp ext];
    cbn [cfg_channel p_extend cfg_output_amplifier_enabled] in *.
  assert (Hlt : (cch <? to_uint8 (BSP_FEATURE_DAC_MAX_CHANNELS bsp)) = true)
    by (apply Z.ltb_lt; lia).
  assert (Hcp : (1 =? BSP_FEATURE_DAC_HAS_CHARGEPUMP bsp) = true -> ext <> None)
    by (intros H; apply Hext; apply Z.eqb_eq in H; congruence).
  unfold DAOE_of.
  destruct (1 =? BSP_FEATURE_DAC_HAS_CHARGEPUMP bsp) eqn:Hpump;
    [destruct ext as [[pump]|]; [|now elim Hcp]|];
    run;
    (eexists; split; [reflexivity|]; run;
     repeat split; try reflexivity; try discriminate;
     apply bit_get_clear; vm_compute; discriminate).
Qed.

Lemma valid_cfg0 : valid_cfg bsp_checked cfg0 /\ valid_cfg bsp_unchecked cfg0.
Proof.
  split; (split; [vm_compute; split; congruence|]);
    (split; [now left | discriminate]).
Qed.

Lemma Start_ok bsp w :
  opened_channel w ->
  (pp_if (DAC_CFG_PARAM_CHECKING_ENABLE bsp) = true -> output_enabled w = false) ->
  exists w1,
    R_DAC_Start bsp P_CTRL w = Done FSP_SUCCESS w1 /\
    ctrl w1 = ctrl w /\
    DADR (R_DAC w1) = DADR (R_DAC w) /\
    output_enabled w1 = true.
Proof.
  intros (Hopen & Hch & Hlen) Hidle.
  unfold R_DAC_Start, Start_param_check, Start_plain, Start_amplifier, DADR_at.
  split_world w. sentinel opened. unfold DAOE_of in *. two_channels ch dadr.
  all: change (0 =? 0) with true in *; change (0 =? 1) with false in *.
  all: cbv iota in Hidle.
  all: destruct (pp_if (DAC_CFG_PARAM_CHECKING_ENABLE bsp));
    [specialize (Hidle eq_refl)|clear Hidle]; run.
  all: eexists; split; [reflexivity|]; run.
  all: repeat split; apply bit_get_set; vm_compute; discriminate.
Qed.

Lemma Start_in_use bsp w :
  pp_if (DAC_CFG_PARAM_CHECKING_ENABLE bsp) = true ->
  is_open (ctrl w) ->
  output_enabled w = true ->
  R_DAC_Start bsp P_CTRL w = Done FSP_ERR_IN_USE w.
Proof.
  intros Hchk Hopen Hbusy.
  unfold R_DAC_Start, Start_param_check. rewrite Hchk.
  split_world w. sentinel opened. unfold DAOE_of in *.
  destruct (0 =? ch) eqn:Hch0; run; reflexivity.
Qed.

Lemma Stop_ok bsp w :
  is_open (ctrl w) ->
  exists w1,
    R_DAC_Stop bsp P_CTRL w = Done FSP_SUCCESS w1 /\
    ctrl w1 = ctrl w /\
    DADR (R_DAC w1) = DADR (R_DAC w) /\
    output_enabled w1 = false.
Proof.
  intros Hopen. unfold R_DAC_Stop, Handle_param_check.
  split_world w. sentinel opened. unfold DAOE_of.
  destruct (0 =? ch) eqn:Hch0; run.
  all: eexists; split; [reflexivity|]; run.
  all: repeat split; apply bit_get_clear; vm_compute; discriminate.
Qed.

Lemma Close_ok bsp w :
  is_open (ctrl w) ->
  exists w1,
    R_DAC_Close bsp P_CTRL w = Done FSP_SUCCESS w1 /\
    channel_opened (ctrl w1) = 0 /\
    channel (ctrl w1) = channel (ctrl w) /\
    DADR (R_DAC w1) = DADR (R_DAC w) /\
    output_enabled w1 = false.
Proof.
  intros Hopen. unfold R_DAC_Close, Handle_param_check.
  split_world w. sentinel opened. unfold DAOE_of.
  destruct (0 =? ch) eqn:Hch0; run.
  all: eexists; split; [reflexivity|]; run.
  all: repeat split; apply bit_get_clear; vm_compute; discriminate.
Qed.

Lemma Open_already_open bsp w cfg :
  pp_if (DAC_CFG_PARAM_CHECKING_ENABLE bsp) = true ->
  is_open (ctrl w) ->
  valid_cfg bsp cfg ->
  R_DAC_Open bsp P_CTRL (Some cfg) w = Done FSP_ERR_ALREADY_OPEN w.
Proof.
  intros Hchk Hopen (Hch & _).
  unfold R_DAC_Open, Open_param_check. rewrite Hchk.
  split_world w. sentinel opened.
  destruct cfg as [cch sync fmt camp ext];
    cbn [cfg_channel p_extend cfg_output_amplifier_enabled] in *.
  assert (Hlt : (cch <? to_uint8 (BSP_FEATURE_DAC_MAX_CHANNELS bsp)) = true)
    by (apply Z.ltb_lt; lia).
  run. reflexivity.
Qed.

Lemma Write_ok bsp w value :
  opened_channel w ->
  exists w1,
    R_DAC_Write bsp P_CTRL value w = Done FSP_SUCCESS w1 /\
    ctrl w1 = ctrl w /\
    DACR (R_DAC w1) = DACR (R_DAC w) /\
    regs_ok (R_DAC w1).
Proof.
  intros (Hopen & Hch & Hlen).
  unfold R_DAC_Write, Handle_param_check, DADR_at.
  split_world w. sentinel opened. two_channels ch dadr.
  all: run; (eexists; split; [reflexivity|]; run; repeat split).
Qed.

Lemma Start_outcome bsp w w1 :
  opened_channel w ->
  R_DAC_Start bsp P_CTRL w = Done FSP_SUCCESS w1 ->
  ctrl w1 = ctrl w /\ DADR (R_DAC w1) = DADR (R_DAC w) /\
  output_enabled w1 = true.
Proof.
  intros Hw Hrun.
  destruct (pp_if (DAC_CFG_PARAM_CHECKING_ENABLE bsp)) eqn:Hchk.
  - destruct (output_enabled w) eqn:Hoe.
    + rewrite Start_in_use in Hrun by (assumption || apply Hw). discriminate.
    + destruct (Start_ok bsp w Hw) as (w1' & Hrun' & H); [auto|].
      rewrite Hrun in Hrun'. injection Hrun' as <-. exact H.
  - destruct (Start_ok bsp w Hw) as (w1' & Hrun' & H);
      [rewrite Hchk; discriminate|].
    rewrite Hrun in Hrun'. injection Hrun' as <-. exact H.
Qed.

(** C5. With parameter checking compiled in, Start on an opened channel
    whose output-enable bit is set returns FSP_ERR_IN_USE and changes
    nothing; in particular a Start that follows a successful Start, with no
    Stop in between, is refused so. *)
Theorem start_while_started_is_in_use bsp w :
  pp_if (DAC_CFG_PARAM_CHECKING_ENABLE bsp) = true ->
  opened_channel w ->
  (output_enabled w = true ->
   R_DAC_Start bsp P_CTRL w = Done FSP_ERR_IN_USE w) /\
  (forall w1,
     R_DAC_Start bsp P_CTRL w = Done FSP_SUCCESS w1 ->
     R_DAC_Start bsp P_CTRL w1 = Done FSP_ERR_IN_USE w1).
Proof.
  intros Hchk Hw. split.
  - intros Hoe. apply Start_in_use; [assumption|apply Hw|assumption].
  - intros w1 Hrun.
    destruct (Start_outcome bsp w w1 Hw Hrun) as (Hctrl & _ & Hoe).
    apply Start_in_use; [assumption| |assumption].
    rewrite Hctrl. apply Hw.
Qed.

Lemma start_while_started_is_in_use_witness :
  R_DAC_Start bsp_checked P_CTRL started_world
    = Done FSP_ERR_IN_USE started_world.
Proof.
  refine (proj1 (start_while_started_is_in_use bsp_checked started_world
                   _ _) _).
  - reflexivity.
  - split; [discriminate|]. split; [|reflexivity].
    unfold channel_present. simpl. lia.
  - reflexivity.
Defined.

(** C6. A successful Start on an opened channel leaves the channel's
    output-enable bit at 1, and the Stop that follows succeeds and leaves it
    at 0.  From a closed block, for a valid configuration of channel 0:
    Open, Write(0x0200), Start, Stop, Close and Open again all return
    success, the bit reading 1 after Start and 0 after Stop. *)
Theorem start_stop_scenario bsp :
  (forall w w1,
     opened_channel w ->
     R_DAC_Start bsp P_CTRL w = Done FSP_SUCCESS w1 ->
     output_enabled w1 = true /\
     exists w2,
       R_DAC_Stop bsp P_CTRL w1 = Done FSP_SUCCESS w2 /\
       output_enabled w2 = false) /\
  (forall w cfg,
     channel_opened (ctrl w) = 0 ->
     regs_ok (R_DAC w) ->
     valid_cfg bsp cfg ->
     cfg_channel cfg = 0 ->
     exists w1 w2 w3 w4 w5 w6,
       R_DAC_Open bsp P_CTRL (Some cfg) w = Done FSP_SUCCESS w1 /\
       R_DAC_Write bsp P_CTRL 0x0200 w1 = Done FSP_SUCCESS w2 /\
       R_DAC_Start bsp P_CTRL w2 = Done FSP_SUCCESS w3 /\
       output_enabled w3 = true /\
       R_DAC_Stop bsp P_CTRL w3 = Done FSP_SUCCESS w4 /\
       output_enabled w4 = false /\
       R_DAC_Close bsp P_CTRL w4 = Done FSP_SUCCESS w5 /\
       R_DAC_Open bsp P_CTRL (Some cfg) w5 = Done FSP_SUCCESS w6).
Proof.
  split.
  - intros w w1 Hw Hrun.
    destruct (Start_outcome bsp w w1 Hw Hrun) as (Hctrl & _ & Hoe).
    split; [assumption|].
    destruct (Stop_ok bsp w1) as (w2 & Hstop & _ & _ & Hoff).
    + rewrite Hctrl. apply Hw.
    + now exists w2.
  - intros w cfg Hclosed Hregs Hcfg Hch0.
    destruct (Open_ok bsp w cfg Hclosed Hcfg)
      as (w1 & Hopen & Hch1 & Hop1 & _ & Hdadr1 & Hoe1).
    assert (Hw1 : opened_channel w1).
    { unfold opened_channel, is_open, channel_present, regs_ok.
      rewrite Hop1, Hch1, Hch0, Hdadr1.
      repeat split; try discriminate; try lia. exact Hregs. }
    destruct (Write_ok bsp w1 0x0200 Hw1)
      as (w2 & Hwrite & Hctrl2 & Hdacr2 & Hregs2).
    assert (Hw2 : opened_channel w2).
    { destruct Hw1 as (? & ? & ?). unfold opened_channel.
      rewrite Hctrl2. auto. }
    destruct (Start_ok bsp w2 Hw2) as (w3 & Hstart & Hctrl3 & _ & Hoe3).
    { intros _. unfold output_enabled. rewrite Hctrl2, Hdacr2. exact Hoe1. }
    destruct (Stop_ok bsp w3) as (w4 & Hstop & Hctrl4 & _ & Hoe4).
    { rewrite Hctrl3. apply Hw2. }
    destruct (Close_ok bsp w4) as (w5 & Hclose & Hop5 & _).
    { rewrite Hctrl4, Hctrl3. apply Hw2. }
    destruct (Open_ok bsp w5 cfg Hop5 Hcfg) as (w6 & Hopen6 & _).
    exists w1, w2, w3, w4, w5, w6. auto 10.
Qed.

(** C7. Close on an open block returns success and zeroes the opened
    sentinel, after which Open with any valid configuration returns success
    and marks the block opened again. *)
Theorem close_then_open bsp w cfg :
  is_open (ctrl w) ->
  valid_cfg bsp cfg ->
  exists w1 w2,
    R_DAC_Close bsp P_CTRL w = Done FSP_SUCCESS w1 /\
    channel_opened (ctrl w1) = 0 /\
    R_DAC_Open bsp P_CTRL (Some cfg) w1 = Done FSP_SUCCESS w2 /\
    channel_opened (ctrl w2) = DAC_OPEN.
Proof.
  intros Hopen Hcfg.
  destruct (Close_ok bsp w Hopen) as (w1 & Hclose & Hop1 & _).
  destruct (Open_ok bsp w1 cfg Hop1 Hcfg) as (w2 & Hopen2 & _ & Hop2 & _).
  exists w1, w2. auto.
Qed.

Lemma close_then_open_witness :
  exists w1 w2,
    R_DAC_Close bsp_checked P_CTRL started_world = Done FSP_SUCCESS w1 /\
    channel_opened (ctrl w1) = 0 /\
    R_DAC_Open bsp_checked P_CTRL (Some cfg0) w1 = Done FSP_SUCCESS w2 /\
    channel_opened (ctrl w2) = DAC_OPEN.
Proof.
  apply (close_then_open bsp_checked started_world cfg0).
  - unfold is_open. simpl. discriminate.
  - split; [vm_compute; split; congruence|].
    split; [now left | discriminate].
Defined.

(** C3, as the specification states it, fails in a build without parameter
    checking: on the zeroed block the second Open succeeds as well. *)
Lemma open_twice_unchecked_counterexample :
  ctrl fresh_world = zero_ctrl /\
  valid_cfg bsp_unchecked cfg0 /\
  ~ open_then_already_open bsp_unchecked fresh_world cfg0.
Proof.
  split; [reflexivity|]. split; [apply valid_cfg0|].
  intros (w1 & Hopen & _ & Hagain).
  vm_compute in Hopen. injection Hopen as <-.
  vm_compute in Hagain. discriminate.
Qed.

(** C3 (amended). Open with a valid configuration on a block whose sentinel
    is zero returns success and marks the block opened; with parameter
    checking compiled in, a further Open on that block, with any valid
    configuration, returns FSP_ERR_ALREADY_OPEN and changes nothing. *)
Theorem open_fresh_then_already_open bsp w cfg :
  channel_opened (ctrl w) = 0 ->
  valid_cfg bsp cfg ->
  exists w1,
    R_DAC_Open bsp P_CTRL (Some cfg) w = Done FSP_SUCCESS w1 /\
    channel_opened (ctrl w1) = DAC_OPEN /\
    (pp_if (DAC_CFG_PARAM_CHECKING_ENABLE bsp) = true ->
     forall cfg', valid_cfg bsp cfg' ->
       R_DAC_Open bsp P_CTRL (Some cfg') w1 = Done FSP_ERR_ALREADY_OPEN w1).
Proof.
  intros Hclosed Hcfg.
  destruct (Open_ok bsp w cfg Hclosed Hcfg) as (w1 & Hopen & _ & Hop1 & _).
  exists w1. repeat split; try assumption.
  intros Hchk cfg' Hcfg'. apply Open_already_open; try assumption.
  unfold is_open. rewrite Hop1. discriminate.
Qed.

Lemma open_fresh_then_already_open_witness :
  exists w1,
    R_DAC_Open bsp_checked P_CTRL (Some cfg0) fresh_world
      = Done FSP_SUCCESS w1 /\
    channel_opened (ctrl w1) = DAC_OPEN /\
    R_DAC_Open bsp_checked P_CTRL (Some cfg0) w1
      = Done FSP_ERR_ALREADY_OPEN w1.
Proof.
  destruct (open_fresh_then_already_open bsp_checked fresh_world cfg0)
    as (w1 & Hopen & Hop & Hagain).
  - reflexivity.
  - apply valid_cfg0.
  - exists w1. repeat split; try assumption.
    apply Hagain; [reflexivity | apply valid_cfg0].
Defined.

Lemma start_stop_scenario_witness :
  exists w1 w2 w3 w4 w5 w6,
    R_DAC_Open bsp_checked P_CTRL (Some cfg0) fresh_world
      = Done FSP_SUCCESS w1 /\
    R_DAC_Write bsp_checked P_CTRL 0x0200 w1 = Done FSP_SUCCESS w2 /\
    R_DAC_Start bsp_checked P_CTRL w2 = Done FSP_SUCCESS w3 /\
    output_enabled w3 = true /\
    R_DAC_Stop bsp_checked P_CTRL w3 = Done FSP_SUCCESS w4 /\
    output_enabled w4 = false /\
    R_DAC_Close bsp_checked P_CTRL w4 = Done FSP_SUCCESS w5 /\
    R_DAC_Open bsp_checked P_CTRL (Some cfg0) w5 = Done FSP_SUCCESS w6.
Proof.
  apply (proj2 (start_stop_scenario bsp_checked) fresh_world cfg0).
  - reflexivity.
  - reflexivity.
  - apply valid_cfg0.
  - reflexivity.
Defined.

(** C1, as the specification states it, fails where parameter checking is
    compiled in and the channel is already started: Start returns
    FSP_ERR_IN_USE and the sequence is not run. *)
Lemma start_stabilizes_counterexample :
  opened_channel started_world /\
  pp_if (BSP_FEATURE_DAC_HAS_OUTPUT_AMPLIFIER bsp_checked) = true /\
  output_amplifier_enabled (ctrl started_world) = true /\
  R_DAC_Start bsp_checked P_CTRL started_world
    = Done FSP_ERR_IN_USE started_world /\
  ~ start_stabilizes bsp_checked started_world.
Proof.
  split.
  { split; [discriminate|]. split; [|reflexivity].
    unfold channel_present. simpl. lia. }
  split; [reflexivity|]. split; [reflexivity|]. split; [reflexivity|].
  intros (value & w' & _ & Hrun & _).
  vm_compute in Hrun. discriminate.
Qed.

(** C1 (amended). On an opened channel with the output amplifier present and
    enabled, Start returns with the channel's data register holding the
    value it held before the call.  Unless parameter checking is compiled in
    and the output-enable bit is already set (then Start returns
    FSP_ERR_IN_USE and changes nothing), Start returns success having done
    exactly the stabilization sequence: data register zeroed, output
    disabled, stabilization wait and amplifier control set, output enabled,
    4 microseconds of delay, stabilization wait cleared, data register
    restored. *)
Theorem start_amplifier_restores_data bsp w :
  opened_channel w ->
  pp_if (BSP_FEATURE_DAC_HAS_OUTPUT_AMPLIFIER bsp) = true ->
  output_amplifier_enabled (ctrl w) = true ->
  exists value e w',
    data_register w = Some value /\
    R_DAC_Start bsp P_CTRL w = Done e w' /\
    data_register w' = Some value /\
    (pp_if (DAC_CFG_PARAM_CHECKING_ENABLE bsp) && output_enabled w = true ->
     e = FSP_ERR_IN_USE /\ w' = w) /\
    (pp_if (DAC_CFG_PARAM_CHECKING_ENABLE bsp) && output_enabled w = false ->
     e = FSP_SUCCESS /\
     trace w' = trace w ++
       stabilization_sequence (channel (ctrl w)) value (DACR (R_DAC w))
         (DAASWCR (R_DAC w)) (DAAMPCR (R_DAC w)) /\
     ctrl w' = ctrl w /\
     output_enabled w' = true /\
     bit_get (DAAMPCR (R_DAC w')) (DAAMP_of (channel (ctrl w))) = true /\
     bit_get (DAASWCR (R_DAC w')) (DAASW_of (channel (ctrl w))) = false).
Proof.
  intros (Hopen & Hch & Hlen) Hamp Hena.
  unfold R_DAC_Start, Start_param_check, Start_amplifier.
  rewrite Hamp. split_world w. subst amp. sentinel opened.
  unfold DAOE_of, DAAMP_of, DAASW_of, stabilization_sequence.
  two_channels ch dadr.
  all: change (0 =? 0) with true; change (0 =? 1) with false; cbv iota.
  all: destruct (bit_get dacr _) eqn:Hoe;
    destruct (pp_if (DAC_CFG_PARAM_CHECKING_ENABLE bsp)); run.
  all: do 3 eexists; split; [reflexivity|]; split; [reflexivity|]; run.
  all: split; [reflexivity|].
  all: split; [try discriminate; intros _; split; reflexivity|].
  all: try discriminate; intros _.
  all: repeat split.
  all: lazymatch goal with
       | |- bit_get (bit_set _ _) _ = true =>
           apply bit_get_set; vm_compute; discriminate
       | |- bit_get (bit_clear _ _) _ = false =>
           apply bit_get_clear; vm_compute; discriminate
       | |- _ ++ _ = _ =>
           rewrite <- !app_assoc; cbn [app];
           change (6 + 0) with DAOE0; change (6 + 1) with DAOE1;
           reflexivity
       end.
Qed.

Lemma start_amplifier_restores_data_witness :
  exists w',
    R_DAC_Start bsp_checked P_CTRL stopped_world = Done FSP_SUCCESS w' /\
    data_register w' = Some 0xABCD.
Proof.
  destruct (start_amplifier_restores_data bsp_checked stopped_world)
    as (value & e & w' & Hdata & Hrun & Hdata' & _ & Hseq).
  - split; [discriminate|]. split; [|reflexivity].
    unfold channel_present. simpl. lia.
  - reflexivity.
  - reflexivity.
  - destruct (Hseq eq_refl) as (-> & _).
    injection Hdata as <-. exists w'. split; [exact Hrun | exact Hdata'].
Defined.

End DACSpec.

(** * Properties of the key shim *)

Module HUKSpec.
Import HUK HUKModel.

(** ** [copy_key] *)

Lemma copy_key_loop_spec i : forall dst src d s,
  (d + i <= length dst)%nat ->
  (s + i <= length src)%nat ->
  copy_key_loop i dst src d s
    = Some (take d dst ++ take i (drop s src) ++ drop (d + i) dst).
Proof.
  induction i as [|i IH]; intros dst src d s Hd Hs; simpl.
  - rewrite Nat.add_0_r. simpl. now rewrite take_drop.
  - destruct (lookup_lt_is_Some_2 src s) as [b Hb]; [lia|].
    destruct (lookup_lt_is_Some_2 dst d) as [b' Hb']; [lia|].
    rewrite Hb, Hb'.
    rewrite IH by (rewrite ?length_insert; lia).
    rewrite (take_S_r _ d b) by (apply list_lookup_insert_eq; lia).
    rewrite take_insert_ge by lia.
    rewrite drop_insert_lt by lia.
    rewrite (drop_S src b s Hb). simpl.
    rewrite <- app_assoc. simpl.
    now replace (d + S i)%nat with (S (d + i)) by lia.
Qed.

Lemma copy_key_spec dst src size :
  0 <= size < 4294967296 ->
  size <= Z.of_nat (length dst) ->
  size <= Z.of_nat (length src) ->
  copy_key dst src size
    = Some (take (Z.to_nat size) src ++ drop (Z.to_nat size) dst).
Proof.
  intros Hsize Hdst Hsrc. unfold copy_key, to_uint32.
  rewrite Z.mod_small by lia.
  rewrite copy_key_loop_spec by lia. reflexivity.
Qed.

Lemma copy_key_loop_overrun i : forall dst src d s,
  (d <= length dst)%nat ->
  (s <= length src)%nat ->
  (length dst < d + i \/ length src < s + i)%nat ->
  copy_key_loop i dst src d s = None.
Proof.
  induction i as [|i IH]; intros dst src d s Hd Hs Hover; simpl; [lia|].
  destruct (src !! s) as [b|] eqn:Hb; [|reflexivity].
  destruct (dst !! d) as [b'|] eqn:Hb'; [|reflexivity].
  apply lookup_lt_Some in Hb, Hb'.
  apply IH; rewrite ?length_insert; lia.
Qed.

Lemma copy_key_overrun dst src size :
  0 <= size < 4294967296 ->
  Z.of_nat (length dst) < size \/ Z.of_nat (length src) < size ->
  copy_key dst src size = None.
Proof.
  intros Hsize Hover. unfold copy_key, to_uint32.
  rewrite Z.mod_small by lia.
  apply copy_key_loop_overrun; simpl; lia.
Qed.

(** ** The reference digest and provider *)

Example K_first_last :
  length SHA256.K = 64%nat /\
  SHA256.K !! 0%nat = Some 0x428a2f98 /\ SHA256.K !! 63%nat = Some 0xc67178f2.
Proof. repeat split. Qed.

Example digest_abc :
  SHA256.digest [0x61; 0x62; 0x63]
  = [0xba; 0x78; 0x16; 0xbf; 0x8f; 0x01; 0xcf; 0xea;
     0x41; 0x41; 0x40; 0xde; 0x5d; 0xae; 0x22; 0x23;
     0xb0; 0x03; 0x61; 0xa3; 0x96; 0x17; 0x7a; 0x9c;
     0xb4; 0x10; 0xff; 0x61; 0xf2; 0x00; 0x15; 0xad].
Proof. vm_compute. reflexivity. Qed.

Lemma round_length s kw : length s = 8%nat -> length (SHA256.round s kw) = 8%nat.
Proof.
  intros Hs.
  do 9 (destruct s as [|? s]; try discriminate Hs). reflexivity.
Qed.

Lemma fold_round_length l : forall s,
  length s = 8%nat -> length (fold_left SHA256.round l s) = 8%nat.
Proof.
  induction l as [|kw l IH]; intros s Hs; simpl; [assumption|].
  apply IH, round_length, Hs.
Qed.

Lemma compress_length h block :
  length h = 8%nat -> length (SHA256.compress h block) = 8%nat.
Proof.
  intros Hh. unfold SHA256.compress.
  rewrite length_map, length_combine, fold_round_length, Hh by assumption.
  reflexivity.
Qed.

Lemma blocks_length n : forall h m,
  length h = 8%nat -> length (SHA256.blocks n h m) = 8%nat.
Proof.
  induction n as [|n IH]; intros h m Hh; simpl; [assumption|].
  apply IH, compress_length, Hh.
Qed.

Lemma be_bytes_length n z : length (SHA256.be_bytes n z) = n.
Proof. induction n as [|n IH]; simpl; congruence. Qed.

Lemma flat_map_be_bytes_length l :
  length (flat_map (SHA256.be_bytes 4) l) = (4 * length l)%nat.
Proof.
  induction l as [|x l IH]; [reflexivity|].
  change (flat_map (SHA256.be_bytes 4) (x :: l))
    with (SHA256.be_bytes 4 x ++ flat_map (SHA256.be_bytes 4) l).
  rewrite length_app, be_bytes_length, IH. simpl. lia.
Qed.

Lemma digest_has_32_bytes m : length (SHA256.digest m) = 32%nat.
Proof.
  unfold SHA256.digest.
  rewrite flat_map_be_bytes_length, blocks_length; reflexivity.
Qed.

Lemma reference_provider_computes :
  provider_computes reference_provider SHA256.digest reference_absorbed.
Proof.
  split.
  - apply digest_has_32_bytes.
  - intros [m|] op'; simpl; [discriminate|].
    intros H. injection H as <-. reflexivity.
  - intros op m data op' -> H. simpl in H. injection H as <-. reflexivity.
  - intros op m buf op' buf' len -> Hbuf H. simpl in H.
    rewrite Hbuf in H. change (32 <=? Z.to_nat SHA256_LEN_BYTES)%nat with true in H.
    injection H as _ <- _.
    rewrite drop_ge by (rewrite Hbuf; reflexivity). apply app_nil_r.
Qed.

(** C9. The derived key does not depend on the context arguments, nor on
    what the key buffer held.  Two calls that agree on label, label size and
    key size (with the same provider and unique identifier) return the same
    status whatever their contexts, context sizes and key buffers; when that
    status is success the [key_size] bytes written to the two key buffers
    are the same, and when it is an error neither buffer is written.  On the
    same key buffer the two calls have the same outcome altogether.  The key
    buffers hold at least [key_size] bytes. *)
Theorem huk_derived_key_ignores_context
    (P : psa_hash_provider) (unique_id : list uint8_t)
    (label : list uint8_t) (label_size : Z)
    (context1 context2 : list uint8_t) (context_size1 context_size2 : Z)
    (key_size : Z) :
  (forall key,
     tfm_plat_get_huk_derived_key P unique_id label label_size
       context1 context_size1 key key_size
     = tfm_plat_get_huk_derived_key P unique_id label label_size
       context2 context_size2 key key_size) /\
  (forall key1 key2,
     0 <= key_size ->
     key_size <= Z.of_nat (length key1) ->
     key_size <= Z.of_nat (length key2) ->
     match tfm_plat_get_huk_derived_key P unique_id label label_size
             context1 context_size1 key1 key_size,
           tfm_plat_get_huk_derived_key P unique_id label label_size
             context2 context_size2 key2 key_size with
     | Some (status1, out1), Some (status2, out2) =>
         status1 = status2 /\
         (status1 = TFM_PLAT_ERR_SUCCESS ->
          take (Z.to_nat key_size) out1 = take (Z.to_nat key_size) out2) /\
         (status1 = TFM_PLAT_ERR_SYSTEM_ERR -> out1 = key1 /\ out2 = key2)
     | None, None => True
     | _, _ => False
     end).
Proof.
  split; [reflexivity|].
  intros key1 key2 Hsize Hkey1 Hkey2.
  unfold tfm_plat_get_huk_derived_key.
  assert (Herr :
    match Some (TFM_PLAT_ERR_SYSTEM_ERR, key1),
          Some (TFM_PLAT_ERR_SYSTEM_ERR, key2) with
    | Some (status1, out1), Some (status2, out2) =>
        status1 = status2 /\
        (status1 = TFM_PLAT_ERR_SUCCESS ->
         take (Z.to_nat key_size) out1 = take (Z.to_nat key_size) out2) /\
        (status1 = TFM_PLAT_ERR_SYSTEM_ERR -> out1 = key1 /\ out2 = key2)
    | None, None => True
    | _, _ => False
    end).
  { split; [reflexivity|]. split; [intros H; discriminate H | auto]. }
  destruct (key_size >? SHA256_LEN_BYTES) eqn:Hbig; [exact Herr|].
  destruct (psa_hash_setup P _ _) as [st1 op1].
  destruct (negb (PSA_SUCCESS =? st1)); [exact Herr|].
  destruct (bytes_at label label_size) as [label_bytes|]; [|exact I].
  destruct (psa_hash_update P op1 label_bytes) as [st2 op2].
  destruct (negb (PSA_SUCCESS =? st2)); [exact Herr|].
  destruct (psa_hash_update P op2 unique_id) as [st3 op3].
  destruct (negb (PSA_SUCCESS =? st3)); [exact Herr|].
  destruct (psa_hash_finish P op3 _) as [[[st4 op4] hash] hash_len].
  destruct (negb (PSA_SUCCESS =? st4)); [exact Herr|].
  clear Herr. rewrite Z.gtb_ltb in Hbig. apply Z.ltb_ge in Hbig.
  unfold SHA256_LEN_BYTES in Hbig.
  destruct (Z_lt_le_dec (Z.of_nat (length hash)) key_size) as [Hshort|Hlong].
  - rewrite !copy_key_overrun by (lia || now right). exact I.
  - rewrite !copy_key_spec by lia.
    split; [reflexivity|]. split; [|intros H; discriminate H].
    intros _. rewrite !take_app_le by (rewrite length_take; lia).
    reflexivity.
Qed.

Lemma huk_derived_key_ignores_context_witness :
  match tfm_plat_get_huk_derived_key reference_provider sample_unique_id
          sample_label 3 [] 0 sample_key_buffer 16,
        tfm_plat_get_huk_derived_key reference_provider sample_unique_id
          sample_label 3 [0x01; 0x02] 2 (repeat 0 16) 16 with
  | Some (status1, out1), Some (status2, out2) =>
      status1 = status2 /\
      (status1 = TFM_PLAT_ERR_SUCCESS -> take 16 out1 = take 16 out2) /\
      (status1 = TFM_PLAT_ERR_SYSTEM_ERR ->
       out1 = sample_key_buffer /\ out2 = repeat 0 16)
  | None, None => True
  | _, _ => False
  end.
Proof.
  apply (proj2 (huk_derived_key_ignores_context reference_provider
                  sample_unique_id sample_label 3 [] [0x01; 0x02] 0 2 16)
           sample_key_buffer (repeat 0 16)).
  - lia.
  - simpl. lia.
  - simpl. lia.
Defined.

(** C10. A key size above 32 makes the derivation return
    TFM_PLAT_ERR_SYSTEM_ERR with the key buffer untouched.  With a key size
    of at most 32 that fits the key buffer, and every hash step returning
    PSA_SUCCESS from a provider that computes the digest [H], it returns
    TFM_PLAT_ERR_SUCCESS with the first [key_size] bytes of the key buffer
    replaced by the first [key_size] bytes of [H] of the label bytes followed
    by the unique identifier. *)
Theorem huk_derived_key_result
    (P : psa_hash_provider) (unique_id : list uint8_t)
    (label : list uint8_t) (label_size : Z)
    (context : list uint8_t) (context_size : Z)
    (key : list uint8_t) (key_size : Z) :
  (SHA256_LEN_BYTES < key_size ->
   tfm_plat_get_huk_derived_key P unique_id label label_size
     context context_size key key_size
   = Some (TFM_PLAT_ERR_SYSTEM_ERR, key)) /\
  (forall H absorbed,
     provider_computes P H absorbed ->
     0 <= key_size <= SHA256_LEN_BYTES ->
     key_size <= Z.of_nat (length key) ->
     0 <= label_size <= Z.of_nat (length label) ->
     hash_steps_succeed P (take (Z.to_nat label_size) label) unique_id ->
     tfm_plat_get_huk_derived_key P unique_id label label_size
       context context_size key key_size
     = Some (TFM_PLAT_ERR_SUCCESS,
             take (Z.to_nat key_size)
               (H (take (Z.to_nat label_size) label ++ unique_id))
             ++ drop (Z.to_nat key_size) key)).
Proof.
  unfold tfm_plat_get_huk_derived_key. split.
  - intros Hbig. apply Z.gtb_lt in Hbig. now rewrite Hbig.
  - intros H absorbed HP Hsize Hkey Hlabel
      (op1 & op2 & op3 & op4 & hash & hash_len & H1 & H2 & H3 & H4).
    assert ((key_size >? SHA256_LEN_BYTES) = false) as ->
      by (rewrite Z.gtb_ltb; apply Z.ltb_ge; lia).
    unfold bytes_at.
    assert ((label_size <=? Z.of_nat (length label)) = true) as ->
      by (apply Z.leb_le; lia).
    rewrite H1. cbn [negb Z.eqb PSA_SUCCESS].
    rewrite H2. cbn [negb Z.eqb PSA_SUCCESS].
    rewrite H3. cbn [negb Z.eqb PSA_SUCCESS].
    rewrite H4. cbn [negb Z.eqb PSA_SUCCESS].
    assert (Hhash : hash = H (take (Z.to_nat label_size) label ++ unique_id)).
    { eapply (finish_digest P H absorbed HP); [|apply repeat_length|exact H4].
      replace (take (Z.to_nat label_size) label ++ unique_id)
        with (([] ++ take (Z.to_nat label_size) label) ++ unique_id)
        by reflexivity.
      eapply (update_absorbed P H absorbed HP); [|exact H3].
      eapply (update_absorbed P H absorbed HP); [|exact H2].
      eapply (setup_absorbed P H absorbed HP). exact H1. }
    subst hash.
    rewrite copy_key_spec; [reflexivity| | |].
    + unfold SHA256_LEN_BYTES in Hsize. lia.
    + exact Hkey.
    + rewrite (digest_length P H absorbed HP).
      unfold SHA256_LEN_BYTES in *. lia.
Qed.

Lemma huk_derived_key_result_witness :
  tfm_plat_get_huk_derived_key reference_provider sample_unique_id
    sample_label 3 [] 0 sample_key_buffer 16
  = Some (TFM_PLAT_ERR_SUCCESS,
          take 16 (SHA256.digest (sample_label ++ sample_unique_id))
          ++ repeat 0xEE 24).
Proof.
  apply (proj2 (huk_derived_key_result reference_provider sample_unique_id
                  sample_label 3 [] 0 sample_key_buffer 16)
           SHA256.digest reference_absorbed reference_provider_computes).
  - unfold SHA256_LEN_BYTES. lia.
  - simpl. lia.
  - simpl. lia.
  - unfold hash_steps_succeed. simpl. repeat eexists.
Defined.

End HUKSpec.

(** * Further properties of the DAC driver *)

Module DACExtra.
Import DAC DACSpec.

(** Execution as [run], also splitting on a register lookup that does not
    reduce. *)
Ltac run_any :=
  repeat (exec;
          try match goal with
              | H : ?b = true |- context [if ?b then _ else _] => rewrite H
              | H : ?b = false |- context [if ?b then _ else _] => rewrite H
              | H : ?o = Some _
                |- context [match ?o with Some _ => _ | None => _ end] =>
                  rewrite H
              | H : ?o = None
                |- context [match ?o with Some _ => _ | None => _ end] =>
                  rewrite H
              | |- context [if ?b then _ else _] => destruct b eqn:?
              | |- context [match ?o with Some _ => _ | None => _ end] =>
                  destruct o eqn:?
              end).

(** The outcome of a run on concrete data, as an equation [H]. *)
Ltac outcome m H :=
  let r := eval vm_compute in m in
  assert (H : m = r) by (vm_compute; reflexivity).

(** X1. In a build without parameter checking no operation returns an error:
    whatever it is called on, if it returns it returns FSP_SUCCESS. *)
Theorem unchecked_build_reports_nothing bsp p_api_ctrl o w e w' :
  pp_if (DAC_CFG_PARAM_CHECKING_ENABLE bsp) = false ->
  call bsp p_api_ctrl o w = Done e w' ->
  e = FSP_SUCCESS.
Proof.
  intros Hchk. revert w e w'.
  change (only_success (call bsp p_api_ctrl o)).
  destruct o; simpl;
    unfold R_DAC_Open, R_DAC_Write, R_DAC_Start, R_DAC_Stop, R_DAC_Close,
      Open_param_check, Handle_param_check, Start_param_check;
    rewrite Hchk;
    repeat (apply only_success_bind; intros); apply only_success_ret.
Qed.

Lemma unchecked_build_reports_nothing_witness :
  call bsp_unchecked P_CTRL OpStop fresh_world
  = Done FSP_SUCCESS
      {| ctrl := zero_ctrl; R_DAC := reset_regs;
         trace := [EvCriticalEnter; EvStore REG_DACR 0; EvCriticalExit] |} /\
  FSP_SUCCESS = FSP_SUCCESS.
Proof.
  split; [reflexivity|].
  apply (unchecked_build_reports_nothing bsp_unchecked P_CTRL OpStop
           fresh_world FSP_SUCCESS
           {| ctrl := zero_ctrl; R_DAC := reset_regs;
              trace := [EvCriticalEnter; EvStore REG_DACR 0;
                        EvCriticalExit] |});
    reflexivity.
Defined.

(** X2. With parameter checking, a null control pointer makes each of the five
    operations return FSP_ERR_ASSERTION, and so does a null configuration
    pointer in Open; nothing is touched. *)
Theorem null_pointer_is_assertion bsp w :
  pp_if (DAC_CFG_PARAM_CHECKING_ENABLE bsp) = true ->
  (forall o, call bsp NULL o w = Done FSP_ERR_ASSERTION w) /\
  (forall p_api_ctrl,
     R_DAC_Open bsp p_api_ctrl None w = Done FSP_ERR_ASSERTION w).
Proof.
  intros Hchk. split.
  - intros [[cfg|]| | | |]; simpl;
      unfold R_DAC_Open, R_DAC_Write, R_DAC_Start, R_DAC_Stop, R_DAC_Close,
        Open_param_check, Handle_param_check, Start_param_check;
      rewrite Hchk; reflexivity.
  - intros p. unfold R_DAC_Open, Open_param_check. rewrite Hchk. reflexivity.
Qed.

Lemma null_pointer_is_assertion_witness :
  call bsp_checked NULL OpStart started_world
    = Done FSP_ERR_ASSERTION started_world /\
  R_DAC_Open bsp_checked P_CTRL None fresh_world
    = Done FSP_ERR_ASSERTION fresh_world.
Proof.
  split.
  - apply (proj1 (null_pointer_is_assertion bsp_checked started_world
                    eq_refl)).
  - apply (proj2 (null_pointer_is_assertion bsp_checked fresh_world eq_refl)).
Defined.

(** X3. The order of Open's checks, with parameter checking and both pointers
    valid: a channel the part does not have is reported as
    FSP_ERR_IP_CHANNEL_NOT_PRESENT even on a block that is open; otherwise an
    open block is reported as FSP_ERR_ALREADY_OPEN even if the extended
    configuration is missing; otherwise, on a part with a charge pump, a
    missing extended configuration is FSP_ERR_ASSERTION.  Nothing is touched
    in any of these cases. *)
Theorem open_check_order bsp w cfg :
  pp_if (DAC_CFG_PARAM_CHECKING_ENABLE bsp) = true ->
  (to_uint8 (BSP_FEATURE_DAC_MAX_CHANNELS bsp) <= cfg_channel cfg ->
   R_DAC_Open bsp P_CTRL (Some cfg) w
   = Done FSP_ERR_IP_CHANNEL_NOT_PRESENT w) /\
  (cfg_channel cfg < to_uint8 (BSP_FEATURE_DAC_MAX_CHANNELS bsp) ->
   is_open (ctrl w) ->
   R_DAC_Open bsp P_CTRL (Some cfg) w = Done FSP_ERR_ALREADY_OPEN w) /\
  (cfg_channel cfg < to_uint8 (BSP_FEATURE_DAC_MAX_CHANNELS bsp) ->
   channel_opened (ctrl w) = 0 ->
   BSP_FEATURE_DAC_HAS_CHARGEPUMP bsp = 1 ->
   p_extend cfg = None ->
   R_DAC_Open bsp P_CTRL (Some cfg) w = Done FSP_ERR_ASSERTION w).
Proof.
  intros Hchk.
  unfold R_DAC_Open, Open_param_check. rewrite Hchk.
  split_world w. destruct cfg as [cch sync fmt camp ext];
    cbn [cfg_channel p_extend] in *.
  repeat split.
  - intros Hge. apply Z.ltb_ge in Hge. run. reflexivity.
  - intros Hlt Hopen. apply Z.ltb_lt in Hlt. sentinel opened.
    run. reflexivity.
  - intros Hlt Hclosed Hpump ->. apply Z.ltb_lt in Hlt. sentinel opened.
    rewrite Hpump. change (1 =? 1) with true. run. reflexivity.
Qed.

Lemma open_check_order_witness :
  R_DAC_Open bsp_checked P_CTRL
    (Some {| cfg_channel := 2; ad_da_synchronized := false;
             data_format := 0; cfg_output_amplifier_enabled := false;
             p_extend := None |}) started_world
  = Done FSP_ERR_IP_CHANNEL_NOT_PRESENT started_world /\
  R_DAC_Open bsp_checked P_CTRL (Some cfg0) started_world
  = Done FSP_ERR_ALREADY_OPEN started_world /\
  R_DAC_Open bsp_small P_CTRL (Some cfg0) fresh_world
  = Done FSP_ERR_ASSERTION fresh_world.
Proof.
  split; [|split].
  - apply (proj1 (open_check_order bsp_checked started_world _ eq_refl)).
    vm_compute. discriminate.
  - apply (proj1 (proj2 (open_check_order bsp_checked started_world cfg0
                           eq_refl))).
    + reflexivity.
    + unfold is_open. simpl. discriminate.
  - apply (proj2 (proj2 (open_check_order bsp_small fresh_world cfg0
                           eq_refl))); reflexivity.
Defined.

(** ** Bits next to the one written *)

Lemma testbit_one_shifted q p :
  0 <= q -> 0 <= p -> p <> q -> Z.testbit (Z.shiftl 1 q) p = false.
Proof.
  intros Hq Hp Hne. rewrite Z.shiftl_1_l, Z.pow2_bits_eqb by assumption.
  apply Z.eqb_neq. congruence.
Qed.

Lemma bit_get_set_other r q p :
  0 <= q -> 0 <= p -> p <> q -> bit_get (bit_set r q) p = bit_get r p.
Proof.
  intros Hq Hp Hne. unfold bit_get, bit_set.
  rewrite Z.lor_spec, testbit_one_shifted by assumption. apply orb_false_r.
Qed.

Lemma bit_get_clear_other r q p :
  0 <= q -> 0 <= p -> p <> q -> bit_get (bit_clear r q) p = bit_get r p.
Proof.
  intros Hq Hp Hne. unfold bit_get, bit_clear.
  rewrite Z.ldiff_spec, testbit_one_shifted by assumption. apply andb_true_r.
Qed.

Lemma bit_clear_set r q : 0 <= q -> bit_clear (bit_set r q) q = bit_clear r q.
Proof.
  intros Hq. apply Z.bits_inj'. intros p Hp. unfold bit_clear, bit_set.
  rewrite !Z.ldiff_spec, Z.lor_spec.
  destruct (Z.eq_dec p q) as [->|Hne].
  - rewrite Z.shiftl_spec, Z.sub_diag by assumption. simpl.
    now rewrite !andb_false_r.
  - rewrite testbit_one_shifted by assumption. now rewrite orb_false_r.
Qed.

Lemma bit_clear_clear_bit r q :
  0 <= q -> bit_get r q = false -> bit_clear r q = r.
Proof.
  intros Hq Hoff. apply Z.bits_inj'. intros p Hp. unfold bit_clear.
  rewrite Z.ldiff_spec.
  destruct (Z.eq_dec p q) as [->|Hne].
  - unfold bit_get in Hoff. now rewrite Hoff.
  - rewrite testbit_one_shifted by assumption. apply andb_true_r.
Qed.

Lemma data_format_bit fmt :
  to_uint8 (Z.shiftl (to_uint8 fmt) (to_uint8 DAC_DADPR_REG_DPSEL_BIT_POS))
  = 0x80 * (fmt mod 2).
Proof.
  change (to_uint8 DAC_DADPR_REG_DPSEL_BIT_POS) with 7.
  rewrite Z.shiftl_mul_pow2 by lia. unfold to_uint8.
  change (2 ^ 7) with 128.
  pose proof (Z.mod_pos_bound fmt 256).
  pose proof (Z.div_mod fmt 256).
  pose proof (Z.div_mod fmt 2).
  pose proof (Z.mod_pos_bound fmt 2).
  pose proof (Z.div_mod (fmt mod 256 * 128) 256).
  pose proof (Z.mod_pos_bound (fmt mod 256 * 128) 256).
  lia.
Qed.

Lemma Open_programs_format bsp w cfg w1 :
  R_DAC_Open bsp P_CTRL (Some cfg) w = Done FSP_SUCCESS w1 ->
  DADPR (R_DAC w1) = 0x80 * (data_format cfg mod 2).
Proof.
  pose proof (data_format_bit (data_format cfg)) as Hfmt.
  unfold R_DAC_Open, Open_param_check.
  split_world w. destruct cfg as [cch sync fmt camp ext];
    cbn [cfg_channel p_extend cfg_output_amplifier_enabled data_format] in *.
  destruct ext as [[pump]|]; run;
    intros Hrun; try discriminate Hrun;
    injection Hrun as <-; exact Hfmt.
Qed.

Lemma Open_accepts_any_format bsp w cfg :
  channel_opened (ctrl w) = 0 ->
  0 <= cfg_channel cfg < to_uint8 (BSP_FEATURE_DAC_MAX_CHANNELS bsp) ->
  (BSP_FEATURE_DAC_HAS_CHARGEPUMP bsp = 1 -> p_extend cfg <> None) ->
  exists w1, R_DAC_Open bsp P_CTRL (Some cfg) w = Done FSP_SUCCESS w1.
Proof.
  intros Hclosed Hch Hext.
  unfold R_DAC_Open, Open_param_check, FSP_ASSERT, FSP_ERROR_RETURN.
  split_world w. sentinel opened.
  destruct cfg as [cch sync fmt camp ext];
    cbn [cfg_channel p_extend cfg_output_amplifier_enabled] in *.
  assert (Hlt : (cch <? to_uint8 (BSP_FEATURE_DAC_MAX_CHANNELS bsp)) = true)
    by (apply Z.ltb_lt; lia).
  assert (Hcp : (1 =? BSP_FEATURE_DAC_HAS_CHARGEPUMP bsp) = true -> ext <> None)
    by (intros H; apply Hext; apply Z.eqb_eq in H; congruence).
  destruct (1 =? BSP_FEATURE_DAC_HAS_CHARGEPUMP bsp) eqn:Hpump;
    [destruct ext as [[pump]|]; [|now elim Hcp]|];
    run; eexists; reflexivity.
Qed.

(** X4. Open does not validate [data_format]: it programs the data format
    from the lowest bit of the value alone.  On a closed block, with the
    channel in range (and the extended configuration present where the part
    has a charge pump), Open returns success for every value of
    [data_format], in range or not; and after every successful Open DADPR
    holds 0x80 when the lowest bit of [data_format] is set and 0
    otherwise. *)
Theorem open_programs_data_format bsp w cfg :
  (channel_opened (ctrl w) = 0 ->
   0 <= cfg_channel cfg < to_uint8 (BSP_FEATURE_DAC_MAX_CHANNELS bsp) ->
   (BSP_FEATURE_DAC_HAS_CHARGEPUMP bsp = 1 -> p_extend cfg <> None) ->
   exists w1,
     R_DAC_Open bsp P_CTRL (Some cfg) w = Done FSP_SUCCESS w1 /\
     DADPR (R_DAC w1) = 0x80 * (data_format cfg mod 2)) /\
  (forall w1,
     R_DAC_Open bsp P_CTRL (Some cfg) w = Done FSP_SUCCESS w1 ->
     DADPR (R_DAC w1) = 0x80 * (data_format cfg mod 2)).
Proof.
  split.
  - intros Hclosed Hch Hext.
    destruct (Open_accepts_any_format bsp w cfg Hclosed Hch Hext)
      as (w1 & Hrun).
    exists w1. split; [exact Hrun|].
    exact (Open_programs_format bsp w cfg w1 Hrun).
  - intros w1. apply Open_programs_format.
Qed.

Lemma open_programs_data_format_witness :
  exists w1,
    R_DAC_Open bsp_checked P_CTRL
      (Some {| cfg_channel := 0; ad_da_synchronized := false;
               data_format := 3; cfg_output_amplifier_enabled := false;
               p_extend := None |}) fresh_world
    = Done FSP_SUCCESS w1 /\
    DADPR (R_DAC w1) = 0x80.
Proof.
  apply (proj1 (open_programs_data_format bsp_checked fresh_world
                  {| cfg_channel := 0; ad_da_synchronized := false;
                     data_format := 3; cfg_output_amplifier_enabled := false;
                     p_extend := None |})).
  - reflexivity.
  - vm_compute. split; congruence.
  - intros H. discriminate H.
Defined.

(** Finishing a goal about the events a run appended. *)
Ltac appended :=
  first [ exists []; split; [symmetry; apply app_nil_r|]
        | rewrite <- ?app_assoc; cbn [app]; eexists; split; [reflexivity|] ].

(** X5. AD/DA synchronization in Open.  On a part with a second ADC unit, Open
    turns synchronization on only if it is requested and DAADSCR reads zero:
    it then starts the ADC module, selects unit 1 in DAADUSR and sets
    DAADSCR to 0x80.  Otherwise it leaves DAADSCR and DAADUSR as they are and
    does not start the ADC module, so that synchronization, once on, stays
    on when the channel is opened again without it.  On a part without that
    unit Open always writes DAADSCR, 0x80 when synchronization is requested
    and 0 when not. *)
Theorem open_synchronization bsp w cfg w1 :
  R_DAC_Open bsp P_CTRL (Some cfg) w = Done FSP_SUCCESS w1 ->
  exists events,
    trace w1 = trace w ++ events /\
    (pp_if (BSP_FEATURE_ADC_UNIT_1_CHANNELS bsp) = true ->
     DAADSCR (R_DAC w) = 0 -> ad_da_synchronized cfg = true ->
     DAADSCR (R_DAC w1) = 0x80 /\ DAADUSR (R_DAC w1) = 0x02 /\
     In (EvModuleStart FSP_IP_ADC 1) events) /\
    (pp_if (BSP_FEATURE_ADC_UNIT_1_CHANNELS bsp) = true ->
     DAADSCR (R_DAC w) <> 0 \/ ad_da_synchronized cfg = false ->
     DAADSCR (R_DAC w1) = DAADSCR (R_DAC w) /\
     DAADUSR (R_DAC w1) = DAADUSR (R_DAC w) /\
     ~ In (EvModuleStart FSP_IP_ADC 1) events) /\
    (pp_if (BSP_FEATURE_ADC_UNIT_1_CHANNELS bsp) = false ->
     DAADSCR (R_DAC w1) = 0x80 * Z_of_bool (ad_da_synchronized cfg) /\
     DAADUSR (R_DAC w1) = DAADUSR (R_DAC w) /\
     ~ In (EvModuleStart FSP_IP_ADC 1) events).
Proof.
  unfold R_DAC_Open, Open_param_check.
  split_world w. destruct cfg as [cch sync fmt camp ext];
    cbn [cfg_channel p_extend cfg_output_amplifier_enabled data_format
         ad_da_synchronized] in *.
  destruct (pp_if (BSP_FEATURE_ADC_UNIT_1_CHANNELS bsp)) eqn:Hadc;
    destruct (0 =? daadscr) eqn:Hscr; destruct sync;
    destruct ext as [[pump]|]; run;
    intros Hrun; try discriminate Hrun; injection Hrun as <-;
    cbn [trace R_DAC DAADSCR DAADUSR]; appended.
  all: try (apply Z.eqb_eq in Hscr; subst daadscr).
  all: try apply Z.eqb_neq in Hscr.
  all: repeat split; intros; try discriminate; try reflexivity;
    try congruence.
  all: simpl; intuition (try discriminate; try congruence).
Qed.

Lemma open_synchronization_witness :
  exists w1,
    R_DAC_Open bsp_checked P_CTRL (Some cfg0) synced_closed_world
    = Done FSP_SUCCESS w1 /\
    DAADSCR (R_DAC w1) = 0x80 /\ DAADUSR (R_DAC w1) = 0x02.
Proof.
  outcome (R_DAC_Open bsp_checked P_CTRL (Some cfg0) synced_closed_world) Hrun.
  eexists. split; [exact Hrun|].
  destruct (open_synchronization bsp_checked synced_closed_world cfg0 _ Hrun)
    as (events & _ & _ & Hkeep & _).
  destruct Hkeep as (Hscr & Husr & _);
    [reflexivity | right; reflexivity |].
  split; [exact Hscr | exact Husr].
Defined.

(** X6. What Close does to an open block: in one critical section it clears the
    channel's output-enable bit and its amplifier-control bit, then zeroes
    the opened sentinel.  The data registers, DAASWCR and all other
    registers keep their contents, the block keeps its channel and its
    amplifier setting, and the module is not stopped. *)
Theorem close_effect bsp w :
  is_open (ctrl w) ->
  exists w1,
    R_DAC_Close bsp P_CTRL w = Done FSP_SUCCESS w1 /\
    ctrl w1 = with_channel_opened (ctrl w) 0 /\
    DACR (R_DAC w1) = bit_clear (DACR (R_DAC w)) (DAOE_of (channel (ctrl w))) /\
    DAAMPCR (R_DAC w1)
      = bit_clear (DAAMPCR (R_DAC w)) (DAAMP_of (channel (ctrl w))) /\
    DADR (R_DAC w1) = DADR (R_DAC w) /\
    DAASWCR (R_DAC w1) = DAASWCR (R_DAC w) /\
    DADPR (R_DAC w1) = DADPR (R_DAC w) /\
    DAADSCR (R_DAC w1) = DAADSCR (R_DAC w) /\
    DAADUSR (R_DAC w1) = DAADUSR (R_DAC w) /\
    DAVREFCR (R_DAC w1) = DAVREFCR (R_DAC w) /\
    DAPC (R_DAC w1) = DAPC (R_DAC w) /\
    trace w1 = trace w ++
      [EvCriticalEnter;
       EvStore REG_DACR (DACR (R_DAC w1));
       EvStore REG_DAAMPCR (DAAMPCR (R_DAC w1));
       EvCriticalExit].
Proof.
  intros Hopen. unfold R_DAC_Close, Handle_param_check.
  split_world w. sentinel opened. unfold DAOE_of, DAAMP_of.
  destruct (0 =? ch) eqn:Hch0; run.
  all: eexists; split; [reflexivity|]; run.
  all: repeat split; rewrite <- !app_assoc; reflexivity.
Qed.

Lemma close_effect_witness :
  exists w1,
    R_DAC_Close bsp_checked P_CTRL two_channel_world = Done FSP_SUCCESS w1 /\
    DACR (R_DAC w1) = 0x40 /\
    DAAMPCR (R_DAC w1) = 0x40 /\
    DADR (R_DAC w1) = [0x0111; 0x0222].
Proof.
  destruct (close_effect bsp_checked two_channel_world)
    as (w1 & Hrun & _ & Hdacr & Hamp & Hdadr & _).
  - unfold is_open. simpl. discriminate.
  - exists w1. split; [exact Hrun|]. split; [exact Hdacr|].
    split; [exact Hamp | exact Hdadr].
Defined.

(** X7. Every operation keeps the discipline of the critical sections, on every
    path that returns, errors included: what it appends to the trace enters
    and leaves critical sections in turn and ends outside of one, every
    store to DACR, DAAMPCR or DAASWCR lies inside a section, and the
    software delay lies outside. *)
Theorem critical_sections_are_kept bsp p_api_ctrl o w e w' :
  call bsp p_api_ctrl o w = Done e w' ->
  exists events,
    trace w' = trace w ++ events /\ critical_ok false events = true.
Proof.
  split_world w.
  destruct o as [[[cch sync fmt camp [[pump]|]]|]|value| | |];
    destruct p_api_ctrl; simpl;
    unfold R_DAC_Open, R_DAC_Write, R_DAC_Start, R_DAC_Stop, R_DAC_Close,
      Open_param_check, Handle_param_check, Start_param_check,
      Start_plain, Start_amplifier;
    run_any;
    intros Hrun; try discriminate Hrun; injection Hrun as <- <-;
    cbn [trace]; appended; reflexivity.
Qed.

Lemma critical_sections_are_kept_witness :
  exists w' events,
    call bsp_checked P_CTRL OpStart stopped_world = Done FSP_SUCCESS w' /\
    trace w' = trace stopped_world ++ events /\
    critical_ok false events = true /\
    In (EvSoftwareDelay 4 BSP_DELAY_UNITS_MICROSECONDS) events.
Proof.
  outcome (call bsp_checked P_CTRL OpStart stopped_world) Hrun.
  destruct (critical_sections_are_kept bsp_checked P_CTRL OpStart
              stopped_world _ _ Hrun) as (events & Htrace & Hok).
  eexists. exists events. split; [exact Hrun|]. split; [exact Htrace|].
  split; [exact Hok|].
  simpl in Htrace. subst events. simpl. tauto.
Defined.

(** Tactics for the bits beside the one an operation writes. *)
Ltac closed_side := vm_compute; first [discriminate | congruence].
Ltac beside :=
  repeat first [ rewrite bit_get_set_other by closed_side
               | rewrite bit_get_clear_other by closed_side ].

(** X8. The two channels do not disturb each other.  Write, Start, Stop and
    Close on an opened channel leave the other channel's data register and
    its output-enable, amplifier-control and stabilization-wait bits as they
    were. *)
Theorem other_channel_is_undisturbed bsp o w e w' :
  takes_handle o = true ->
  opened_channel w ->
  call bsp P_CTRL o w = Done e w' ->
  let oc := other_channel (channel (ctrl w)) in
  DADR (R_DAC w') !! Z.to_nat oc = DADR (R_DAC w) !! Z.to_nat oc /\
  bit_get (DACR (R_DAC w')) (DAOE_of oc)
    = bit_get (DACR (R_DAC w)) (DAOE_of oc) /\
  bit_get (DAAMPCR (R_DAC w')) (DAAMP_of oc)
    = bit_get (DAAMPCR (R_DAC w)) (DAAMP_of oc) /\
  bit_get (DAASWCR (R_DAC w')) (DAASW_of oc)
    = bit_get (DAASWCR (R_DAC w)) (DAASW_of oc).
Proof.
  intros Hop (Hopen & Hch & Hlen).
  split_world w. two_channels ch dadr.
  all: destruct o as [?|value| | |]; try discriminate Hop; simpl;
    unfold R_DAC_Write, R_DAC_Start, R_DAC_Stop, R_DAC_Close,
      Handle_param_check, Start_param_check, Start_plain, Start_amplifier;
    run;
    intros Hrun; try discriminate Hrun; injection Hrun as <- <-;
    cbv [other_channel DAOE_of DAAMP_of DAASW_of];
    cbn [R_DAC DADR DACR DAAMPCR DAASWCR Z.sub Z.opp Z.add Z.eqb Z.pos_sub];
    repeat split; beside; reflexivity.
Qed.

Lemma other_channel_is_undisturbed_witness :
  exists w',
    call bsp_checked P_CTRL OpClose two_channel_world = Done FSP_SUCCESS w' /\
    DADR (R_DAC w') !! 0%nat = Some 0x0111 /\
    bit_get (DACR (R_DAC w')) DAOE0 = true /\
    bit_get (DAAMPCR (R_DAC w')) DAAMP0 = true.
Proof.
  outcome (call bsp_checked P_CTRL OpClose two_channel_world) Hrun.
  assert (Hw : opened_channel two_channel_world).
  { split; [discriminate|]. split; [|reflexivity].
    unfold channel_present. simpl. lia. }
  destruct (other_channel_is_undisturbed bsp_checked OpClose
              two_channel_world _ _ eq_refl Hw Hrun)
    as (Hdadr & Hoe & Hamp & _).
  eexists. split; [exact Hrun|].
  split; [exact Hdadr|]. split; [exact Hoe | exact Hamp].
Defined.



(** X10. Write then Start reads back what was written, in every build and with
    or without the amplifier: on an opened, stopped channel, Write of a
    16-bit value followed by Start leaves the output enabled and the value in
    the channel's data register. *)
Theorem write_then_start_reads_back bsp w value :
  opened_channel w ->
  output_enabled w = false ->
  0 <= value < 65536 ->
  exists w1 w2,
    R_DAC_Write bsp P_CTRL value w = Done FSP_SUCCESS w1 /\
    R_DAC_Start bsp P_CTRL w1 = Done FSP_SUCCESS w2 /\
    data_register w2 = Some value /\
    output_enabled w2 = true.
Proof.
  intros (Hopen & Hch & Hlen) Hoff Hv.
  unfold R_DAC_Write, R_DAC_Start, Handle_param_check, Start_param_check,
    Start_plain, Start_amplifier, to_uint16.
  rewrite (Z.mod_small value) by lia.
  unfold output_enabled in Hoff.
  set (reads := data_register). set (enabled := output_enabled).
  split_world w. sentinel opened. unfold DAOE_of in *.
  two_channels ch dadr.
  all: change (0 =? 0) with true in *; change (0 =? 1) with false in *;
    cbv iota in Hoff.
  all: destruct (pp_if (DAC_CFG_PARAM_CHECKING_ENABLE bsp));
    destruct (pp_if (BSP_FEATURE_DAC_HAS_OUTPUT_AMPLIFIER bsp));
    destruct amp; run.
  all: eexists; eexists; split; [reflexivity|]; run.
  all: split; [reflexivity|].
  all: subst reads enabled; unfold data_register, output_enabled, DAOE_of;
    run.
  all: split; [reflexivity|]; apply bit_get_set; vm_compute; discriminate.
Qed.

Lemma write_then_start_reads_back_witness :
  exists w1 w2,
    R_DAC_Write bsp_checked P_CTRL 0xABCD opened_world = Done FSP_SUCCESS w1 /\
    R_DAC_Start bsp_checked P_CTRL w1 = Done FSP_SUCCESS w2 /\
    data_register w2 = Some 0xABCD /\
    output_enabled w2 = true.
Proof.
  apply (write_then_start_reads_back bsp_checked opened_world 0xABCD).
  - split; [discriminate|]. split; [|reflexivity].
    unfold channel_present. simpl. lia.
  - reflexivity.
  - lia.
Defined.

(** X11. The control block belongs to Open and Close.  Write, Start and Stop
    never change it, whatever they return; Close changes nothing but the
    opened sentinel, which it zeroes exactly when it returns success.  The
    channel and the amplifier setting stay as Open left them. *)
Theorem handle_operations_keep_block bsp p_api_ctrl o w e w' :
  takes_handle o = true ->
  call bsp p_api_ctrl o w = Done e w' ->
  (o <> OpClose -> ctrl w' = ctrl w) /\
  (o = OpClose ->
   (e = FSP_SUCCESS /\ ctrl w' = with_channel_opened (ctrl w) 0) \/
   (e <> FSP_SUCCESS /\ ctrl w' = ctrl w)).
Proof.
  intros Hop. split_world w.
  destruct o as [?|value| | |]; try discriminate Hop;
    destruct p_api_ctrl; simpl;
    unfold R_DAC_Write, R_DAC_Start, R_DAC_Stop, R_DAC_Close,
      Handle_param_check, Start_param_check, Start_plain, Start_amplifier;
    run_any;
    intros Hrun; try discriminate Hrun; injection Hrun as <- <-;
    cbn [ctrl];
    (split; [intros Hne; first [reflexivity | now elim Hne]|]);
    intros Hclose; try discriminate Hclose;
    first [ left; split; reflexivity
          | right; split; [discriminate | reflexivity] ].
Qed.

Lemma handle_operations_keep_block_witness :
  exists w',
    call bsp_checked P_CTRL OpClose started_world = Done FSP_SUCCESS w' /\
    ctrl w' = {| channel := 0; channel_opened := 0;
                 output_amplifier_enabled := true |}.
Proof.
  outcome (call bsp_checked P_CTRL OpClose started_world) Hrun.
  destruct (handle_operations_keep_block bsp_checked P_CTRL OpClose
              started_world _ _ eq_refl Hrun) as (_ & Hclose).
  destruct (Hclose eq_refl) as [(_ & Hctrl) | (Hne & _)];
    [|now elim Hne].
  eexists. split; [exact Hrun | exact Hctrl].
Defined.

(** X12. Start followed by Stop.  On an opened channel that is stopped, Start and
    then Stop both succeed and hand the channel back stopped, with its data
    register and DACR as before Start.  Without the amplifier procedure the
    whole register block is as before; with it, the amplifier-control bit of
    the channel stays set until Close, and the stabilization-wait bit is
    clear. *)
Theorem start_then_stop bsp w :
  opened_channel w ->
  output_enabled w = false ->
  exists w1 w2,
    R_DAC_Start bsp P_CTRL w = Done FSP_SUCCESS w1 /\
    R_DAC_Stop bsp P_CTRL w1 = Done FSP_SUCCESS w2 /\
    ctrl w2 = ctrl w /\
    DADR (R_DAC w2) = DADR (R_DAC w) /\
    DACR (R_DAC w2) = DACR (R_DAC w) /\
    (pp_if (BSP_FEATURE_DAC_HAS_OUTPUT_AMPLIFIER bsp)
       && output_amplifier_enabled (ctrl w) = false ->
     R_DAC w2 = R_DAC w) /\
    (pp_if (BSP_FEATURE_DAC_HAS_OUTPUT_AMPLIFIER bsp)
       && output_amplifier_enabled (ctrl w) = true ->
     DAAMPCR (R_DAC w2)
       = bit_set (DAAMPCR (R_DAC w)) (DAAMP_of (channel (ctrl w))) /\
     bit_get (DAASWCR (R_DAC w2)) (DAASW_of (channel (ctrl w))) = false).
Proof.
  intros (Hopen & Hch & Hlen) Hoff.
  unfold R_DAC_Start, R_DAC_Stop, Handle_param_check, Start_param_check,
    Start_plain, Start_amplifier.
  unfold output_enabled in Hoff.
  split_world w. sentinel opened. unfold DAOE_of, DAAMP_of, DAASW_of in *.
  two_channels ch dadr.
  all: change (0 =? 0) with true in *; change (0 =? 1) with false in *;
    cbv iota in Hoff |- *.
  all: destruct (pp_if (DAC_CFG_PARAM_CHECKING_ENABLE bsp));
    destruct (pp_if (BSP_FEATURE_DAC_HAS_OUTPUT_AMPLIFIER bsp));
    destruct amp; run.
  all: eexists; eexists; split; [reflexivity|]; run.
  all: split; [reflexivity|]; cbv [andb]; exec.
  all: rewrite bit_clear_set, !(bit_clear_clear_bit dacr)
    by (assumption || (vm_compute; discriminate)).
  all: repeat split; try discriminate; try reflexivity.
  all: apply bit_get_clear; vm_compute; discriminate.
Qed.

Lemma start_then_stop_witness :
  exists w1 w2,
    R_DAC_Start bsp_checked P_CTRL stopped_world = Done FSP_SUCCESS w1 /\
    R_DAC_Stop bsp_checked P_CTRL w1 = Done FSP_SUCCESS w2 /\
    DACR (R_DAC w2) = 0 /\ DAAMPCR (R_DAC w2) = 0x40.
Proof.
  destruct (start_then_stop bsp_checked stopped_world)
    as (w1 & w2 & Hstart & Hstop & _ & _ & Hdacr & _ & Hamp).
  - split; [discriminate|]. split; [|reflexivity].
    unfold channel_present. simpl. lia.
  - reflexivity.
  - exists w1, w2. split; [exact Hstart|]. split; [exact Hstop|].
    split; [exact Hdacr|]. exact (proj1 (Hamp eq_refl)).
Defined.

(** The version query needs no open channel and touches nothing: with a
    valid pointer it returns success and the version word in every build and
    every state, so that a call of it before any operation does not change
    what the operation does; with a null pointer and parameter checking it
    returns FSP_ERR_ASSERTION. *)
Theorem version_query_touches_nothing bsp version_id v w :
  R_DAC_VersionGet bsp version_id (Some v) w
    = Done (FSP_SUCCESS, Some version_id) w /\
  (pp_if (DAC_CFG_PARAM_CHECKING_ENABLE bsp) = true ->
   R_DAC_VersionGet bsp version_id None w
     = Done (FSP_ERR_ASSERTION, None) w) /\
  (forall p_api_ctrl o,
     bind (R_DAC_VersionGet bsp version_id (Some v))
       (fun _ => call bsp p_api_ctrl o) w
     = call bsp p_api_ctrl o w).
Proof.
  unfold R_DAC_VersionGet, bind.
  destruct (pp_if (DAC_CFG_PARAM_CHECKING_ENABLE bsp));
    repeat split; intros; try discriminate; reflexivity.
Qed.

Lemma version_query_touches_nothing_witness :
  R_DAC_VersionGet bsp_checked 0x01000200 None started_world
  = Done (FSP_ERR_ASSERTION, None) started_world.
Proof.
  apply (proj1 (proj2 (version_query_touches_nothing bsp_checked 0x01000200
                         0 started_world))).
  reflexivity.
Defined.

End DACExtra.

(** * Further properties of the key shim *)

Module HUKExtra.
Import HUK HUKModel HUKSpec.

Lemma copy_key_Some dst src size dst' :
  0 <= size < 4294967296 ->
  copy_key dst src size = Some dst' ->
  size <= Z.of_nat (length dst) /\ size <= Z.of_nat (length src) /\
  dst' = take (Z.to_nat size) src ++ drop (Z.to_nat size) dst.
Proof.
  intros Hsize Hcopy.
  destruct (Z_lt_le_dec (Z.of_nat (length dst)) size) as [Hd|Hd].
  { rewrite copy_key_overrun in Hcopy by (assumption || now left).
    discriminate. }
  destruct (Z_lt_le_dec (Z.of_nat (length src)) size) as [Hs|Hs].
  { rewrite copy_key_overrun in Hcopy by (assumption || now right).
    discriminate. }
  rewrite copy_key_spec in Hcopy by assumption.
  injection Hcopy as <-. auto.
Qed.

(** X13. [copy_key] copies exactly [size] bytes from the start of the source to
    the start of the destination and leaves the rest of the destination as
    it was; it stays within both buffers exactly when each holds at least
    [size] bytes. *)
Theorem copy_key_copies_prefix dst src size :
  0 <= size < 4294967296 ->
  (size <= Z.of_nat (length dst) /\ size <= Z.of_nat (length src) ->
   copy_key dst src size
   = Some (take (Z.to_nat size) src ++ drop (Z.to_nat size) dst) /\
   length (take (Z.to_nat size) src ++ drop (Z.to_nat size) dst)
   = length dst) /\
  (Z.of_nat (length dst) < size \/ Z.of_nat (length src) < size ->
   copy_key dst src size = None).
Proof.
  intros Hsize. split.
  - intros (Hdst & Hsrc). split; [now apply copy_key_spec|].
    rewrite length_app, length_take, length_drop. lia.
  - now apply copy_key_overrun.
Qed.

Lemma copy_key_copies_prefix_witness :
  copy_key [1; 2; 3; 4; 5] [7; 8; 9] 2 = Some [7; 8; 3; 4; 5] /\
  copy_key [1; 2] [7; 8; 9] 3 = None.
Proof.
  split.
  - apply (proj1 (copy_key_copies_prefix [1; 2; 3; 4; 5] [7; 8; 9] 2
                    ltac:(lia))). simpl. lia.
  - apply (proj2 (copy_key_copies_prefix [1; 2] [7; 8; 9] 3 ltac:(lia))).
    simpl. lia.
Defined.

(** X14. The attestation key.  A buffer size below the size of the private key
    makes the call return TFM_PLAT_ERR_SYSTEM_ERR with the key buffer, the
    key descriptor and the curve type all as they were.  Otherwise, with the
    key buffer really holding [size] bytes, the call returns success: the
    private key is at the start of the key buffer, the rest of the buffer is
    as before, the descriptor points to the buffer with the size of the
    private key and has no public key, and the curve type is set. *)
Theorem initial_attest_key_result curve private_key private_key_size
    out size :
  0 <= private_key_size < 4294967296 ->
  private_key_size = Z.of_nat (length private_key) ->
  (size < private_key_size ->
   tfm_plat_get_initial_attest_key curve private_key private_key_size
     out size
   = Some (TFM_PLAT_ERR_SYSTEM_ERR, out)) /\
  (private_key_size <= size ->
   size <= Z.of_nat (length (key_buf out)) ->
   tfm_plat_get_initial_attest_key curve private_key private_key_size
     out size
   = Some (TFM_PLAT_ERR_SUCCESS,
           {| key_buf := private_key
                         ++ drop (length private_key) (key_buf out);
              ecc_key := {| priv_key := KEY_BUF;
                            priv_key_size := private_key_size;
                            pubx_key := KEY_NULL; pubx_key_size := 0;
                            puby_key := KEY_NULL; puby_key_size := 0 |};
              curve_type := curve |})).
Proof.
  intros Hrange Hlen. unfold tfm_plat_get_initial_attest_key, to_uint32.
  rewrite Z.mod_small by lia. split.
  - intros Hsmall. apply Z.ltb_lt in Hsmall. now rewrite Hsmall.
  - intros Hfit Hbuf.
    assert ((size <? private_key_size) = false) as -> by (apply Z.ltb_ge; lia).
    rewrite copy_key_spec by lia. cbn [negb Z.eqb].
    rewrite Hlen, Nat2Z.id, take_ge by lia. reflexivity.
Qed.

Lemma initial_attest_key_result_witness :
  tfm_plat_get_initial_attest_key 0x17 [0xA1; 0xA2; 0xA3; 0xA4] 4
    {| key_buf := [0; 0; 0; 0; 0; 0];
       ecc_key := {| priv_key := KEY_NULL; priv_key_size := 0;
                     pubx_key := KEY_NULL; pubx_key_size := 0;
                     puby_key := KEY_NULL; puby_key_size := 0 |};
       curve_type := 0 |} 6
  = Some (TFM_PLAT_ERR_SUCCESS,
          {| key_buf := [0xA1; 0xA2; 0xA3; 0xA4; 0; 0];
             ecc_key := {| priv_key := KEY_BUF; priv_key_size := 4;
                           pubx_key := KEY_NULL; pubx_key_size := 0;
                           puby_key := KEY_NULL; puby_key_size := 0 |};
             curve_type := 0x17 |}).
Proof.
  apply (proj2 (initial_attest_key_result 0x17 [0xA1; 0xA2; 0xA3; 0xA4] 4
                  {| key_buf := [0; 0; 0; 0; 0; 0];
                     ecc_key := {| priv_key := KEY_NULL; priv_key_size := 0;
                                   pubx_key := KEY_NULL; pubx_key_size := 0;
                                   puby_key := KEY_NULL; puby_key_size := 0 |};
                     curve_type := 0 |} 6 ltac:(lia) eq_refl)).
  - lia.
  - simpl. lia.
Defined.

(** X15. What the derivation can do to the key buffer, for any provider.  Every
    call that returns keeps the length of the key buffer and the bytes from
    [key_size] on; one that returns TFM_PLAT_ERR_SYSTEM_ERR, for a key size
    above 32 or for a hash step that failed, leaves the whole buffer as it
    was. *)
Theorem huk_derived_key_frame
    (P : psa_hash_provider) (unique_id : list uint8_t)
    (label : list uint8_t) (label_size : Z)
    (context : list uint8_t) (context_size : Z)
    (key : list uint8_t) (key_size : Z) e key' :
  0 <= key_size ->
  tfm_plat_get_huk_derived_key P unique_id label label_size
    context context_size key key_size = Some (e, key') ->
  length key' = length key /\
  drop (Z.to_nat key_size) key' = drop (Z.to_nat key_size) key /\
  (e = TFM_PLAT_ERR_SYSTEM_ERR -> key' = key).
Proof.
  intros Hsize. unfold tfm_plat_get_huk_derived_key.
  assert (Hkeep : Some (TFM_PLAT_ERR_SYSTEM_ERR, key) = Some (e, key') ->
                  length key' = length key /\
                  drop (Z.to_nat key_size) key' = drop (Z.to_nat key_size) key /\
                  (e = TFM_PLAT_ERR_SYSTEM_ERR -> key' = key)).
  { intros H. injection H as <- <-. auto. }
  destruct (key_size >? SHA256_LEN_BYTES) eqn:Hbig; [exact Hkeep|].
  destruct (psa_hash_setup P _ _) as [st1 op1].
  destruct (negb (PSA_SUCCESS =? st1)); [exact Hkeep|].
  destruct (bytes_at label label_size) as [label_bytes|]; [|discriminate].
  destruct (psa_hash_update P op1 label_bytes) as [st2 op2].
  destruct (negb (PSA_SUCCESS =? st2)); [exact Hkeep|].
  destruct (psa_hash_update P op2 unique_id) as [st3 op3].
  destruct (negb (PSA_SUCCESS =? st3)); [exact Hkeep|].
  destruct (psa_hash_finish P op3 _) as [[[st4 op4] hash] hash_len].
  destruct (negb (PSA_SUCCESS =? st4)); [exact Hkeep|].
  destruct (copy_key key hash key_size) as [copied|] eqn:Hcopy;
    [|discriminate].
  intros H. injection H as <- <-.
  rewrite Z.gtb_ltb in Hbig. apply Z.ltb_ge in Hbig.
  unfold SHA256_LEN_BYTES in Hbig.
  apply copy_key_Some in Hcopy as (Hk & Hh & ->); [|lia].
  split; [|split; [|discriminate]].
  - rewrite length_app, length_take, length_drop. lia.
  - rewrite drop_app_length'; [reflexivity|].
    rewrite length_take. lia.
Qed.

(** The value of a closed term, as an equation [H]. *)
Ltac evaluated m H :=
  let r := eval vm_compute in m in
  assert (H : m = r) by (vm_compute; reflexivity).

Lemma huk_derived_key_frame_witness :
  tfm_plat_get_huk_derived_key failing_provider sample_unique_id
    sample_label 3 [] 0 sample_key_buffer 16
  = Some (TFM_PLAT_ERR_SYSTEM_ERR, sample_key_buffer) /\
  (TFM_PLAT_ERR_SYSTEM_ERR = TFM_PLAT_ERR_SYSTEM_ERR ->
   sample_key_buffer = sample_key_buffer).
Proof.
  split; [reflexivity|].
  apply (huk_derived_key_frame failing_provider sample_unique_id
           sample_label 3 [] 0 sample_key_buffer 16
           TFM_PLAT_ERR_SYSTEM_ERR sample_key_buffer ltac:(lia) eq_refl).
Defined.

(** X16. A shorter derived key is the beginning of a longer one: two successful
    derivations for the same label (with the same provider and unique
    identifier) that differ in key size, key buffer and context agree on
    the first bytes, as many as the smaller key size. *)
Theorem huk_shorter_key_is_prefix
    (P : psa_hash_provider) (unique_id : list uint8_t)
    (label : list uint8_t) (label_size : Z)
    (context1 context2 : list uint8_t) (context_size1 context_size2 : Z)
    (key1 key2 : list uint8_t) (key_size1 key_size2 : Z) out1 out2 :
  0 <= key_size1 <= key_size2 ->
  tfm_plat_get_huk_derived_key P unique_id label label_size
    context1 context_size1 key1 key_size1 = Some (TFM_PLAT_ERR_SUCCESS, out1) ->
  tfm_plat_get_huk_derived_key P unique_id label label_size
    context2 context_size2 key2 key_size2 = Some (TFM_PLAT_ERR_SUCCESS, out2) ->
  take (Z.to_nat key_size1) out1 = take (Z.to_nat key_size1) out2.
Proof.
  intros Hsizes. unfold tfm_plat_get_huk_derived_key.
  destruct (key_size1 >? SHA256_LEN_BYTES) eqn:Hbig1; [discriminate|].
  destruct (key_size2 >? SHA256_LEN_BYTES) eqn:Hbig2; [discriminate|].
  destruct (psa_hash_setup P _ _) as [st1 op1].
  destruct (negb (PSA_SUCCESS =? st1)); [discriminate|].
  destruct (bytes_at label label_size) as [label_bytes|]; [|discriminate].
  destruct (psa_hash_update P op1 label_bytes) as [st2 op2].
  destruct (negb (PSA_SUCCESS =? st2)); [discriminate|].
  destruct (psa_hash_update P op2 unique_id) as [st3 op3].
  destruct (negb (PSA_SUCCESS =? st3)); [discriminate|].
  destruct (psa_hash_finish P op3 _) as [[[st4 op4] hash] hash_len].
  destruct (negb (PSA_SUCCESS =? st4)); [discriminate|].
  destruct (copy_key key1 hash key_size1) as [c1|] eqn:Hc1; [|discriminate].
  destruct (copy_key key2 hash key_size2) as [c2|] eqn:Hc2; [|discriminate].
  intros H1 H2. injection H1 as <-. injection H2 as <-.
  rewrite Z.gtb_ltb in Hbig1, Hbig2. apply Z.ltb_ge in Hbig1, Hbig2.
  unfold SHA256_LEN_BYTES in *.
  apply copy_key_Some in Hc1 as (_ & Hh1 & ->); [|lia].
  apply copy_key_Some in Hc2 as (_ & Hh2 & ->); [|lia].
  rewrite !take_app_le by (rewrite length_take; lia).
  rewrite !take_take. f_equal. lia.
Qed.

Lemma huk_shorter_key_is_prefix_witness :
  exists out1 out2,
    tfm_plat_get_huk_derived_key reference_provider sample_unique_id
      sample_label 3 [] 0 sample_key_buffer 16
    = Some (TFM_PLAT_ERR_SUCCESS, out1) /\
    tfm_plat_get_huk_derived_key reference_provider sample_unique_id
      sample_label 3 [0x01] 1 (repeat 0 32) 32
    = Some (TFM_PLAT_ERR_SUCCESS, out2) /\
    take 16 out1 = take 16 out2.
Proof.
  evaluated (tfm_plat_get_huk_derived_key reference_provider sample_unique_id
               sample_label 3 [] 0 sample_key_buffer 16) H1.
  evaluated (tfm_plat_get_huk_derived_key reference_provider sample_unique_id
               sample_label 3 [0x01] 1 (repeat 0 32) 32) H2.
  eexists. eexists. split; [exact H1|]. split; [exact H2|].
  apply (huk_shorter_key_is_prefix reference_provider sample_unique_id
           sample_label 3 [] [0x01] 0 1 sample_key_buffer (repeat 0 32)
           16 32 _ _ ltac:(lia) H1 H2).
Defined.

Lemma status_is_success st :
  negb (PSA_SUCCESS =? st) = false -> st = PSA_SUCCESS.
Proof.
  intros H. apply negb_false_iff, Z.eqb_eq in H. congruence.
Qed.

(** X17. No failure is swallowed: the derivation returns TFM_PLAT_ERR_SUCCESS
    only if the key size is at most 32 and the setup, both updates and the
    finish of the hash all returned PSA_SUCCESS. *)
Theorem huk_success_needs_every_step
    (P : psa_hash_provider) (unique_id : list uint8_t)
    (label : list uint8_t) (label_size : Z)
    (context : list uint8_t) (context_size : Z)
    (key : list uint8_t) (key_size : Z) key' :
  tfm_plat_get_huk_derived_key P unique_id label label_size
    context context_size key key_size = Some (TFM_PLAT_ERR_SUCCESS, key') ->
  key_size <= SHA256_LEN_BYTES /\
  hash_steps_succeed P (take (Z.to_nat label_size) label) unique_id.
Proof.
  unfold tfm_plat_get_huk_derived_key, hash_steps_succeed, bytes_at.
  destruct (key_size >? SHA256_LEN_BYTES) eqn:Hbig; [discriminate|].
  destruct (psa_hash_setup P _ _) as [st1 op1].
  destruct (negb (PSA_SUCCESS =? st1)) eqn:H1; [discriminate|].
  destruct (label_size <=? Z.of_nat (length label)); [|discriminate].
  destruct (psa_hash_update P op1 _) as [st2 op2] eqn:Hu2.
  destruct (negb (PSA_SUCCESS =? st2)) eqn:H2; [discriminate|].
  destruct (psa_hash_update P op2 unique_id) as [st3 op3] eqn:Hu3.
  destruct (negb (PSA_SUCCESS =? st3)) eqn:H3; [discriminate|].
  destruct (psa_hash_finish P op3 _) as [[[st4 op4] hash] hash_len] eqn:Hf.
  destruct (negb (PSA_SUCCESS =? st4)) eqn:H4; [discriminate|].
  intros _.
  apply status_is_success in H1, H2, H3, H4. subst st1 st2 st3 st4.
  split.
  - rewrite Z.gtb_ltb in Hbig. now apply Z.ltb_ge in Hbig.
  - exists op1, op2, op3, op4, hash, hash_len. auto.
Qed.

Lemma huk_success_needs_every_step_witness :
  exists key',
    tfm_plat_get_huk_derived_key reference_provider sample_unique_id
      sample_label 3 [] 0 sample_key_buffer 16
    = Some (TFM_PLAT_ERR_SUCCESS, key') /\
    hash_steps_succeed reference_provider (take 3 sample_label)
      sample_unique_id.
Proof.
  evaluated (tfm_plat_get_huk_derived_key reference_provider sample_unique_id
               sample_label 3 [] 0 sample_key_buffer 16) Hrun.
  eexists. split; [exact Hrun|].
  exact (proj2 (huk_success_needs_every_step reference_provider
                  sample_unique_id sample_label 3 [] 0 sample_key_buffer 16
                  _ Hrun)).
Defined.

End HUKExtra.
